(** * Resume listing page: filter engine, filter-mode controller, loader and
      export, embedded from [src/page.tsx].

    The page keeps seven pieces of React state ([resumes], [filteredResumes],
    [searchTerm], [filterType], [skillFilter], [locationFilter],
    [experienceFilter]).  Handlers are embedded as functions on that state,
    effects that can raise a JavaScript exception as functions into a
    completion type, and calls to collaborators (toast, console, the
    spreadsheet writer, fetch) as a trace of events. *)

From Stdlib Require Import String Ascii List Bool Arith Lia.
From Stdlib Require Import DecimalString DecimalNat.
From stdpp Require Import base list strings.
Import ListNotations.

Open Scope string_scope.
Open Scope list_scope.

(** ** A small JavaScript layer *)

Module JS.

(** Exceptions the page can meet.  [TypeError] is what reading a property
    of [undefined] or [null] raises. *)
Inductive exn : Type :=
| TypeError
| SyntaxError
| Error (message : string).

(** Completion of an evaluation: a value, or a thrown exception. *)
Inductive completion (A : Type) : Type :=
| Normal (a : A)
| Throw (e : exn).
Arguments Normal {A} a.
Arguments Throw {A} e.

Definition bind {A B} (m : completion A) (k : A -> completion B)
  : completion B :=
  match m with
  | Normal a => k a
  | Throw e => Throw e
  end.

(** A property that may be absent: [None] stands for [undefined] / [null]. *)
Definition nullable (A : Type) : Type := option A.

(** [o.p] on a possibly absent object [o]. *)
Definition get {A B} (o : nullable A) (p : A -> B) : completion B :=
  match o with
  | Some a => Normal (p a)
  | None => Throw TypeError
  end.

(** ToBoolean on the values the filter callbacks produce: [undefined]
    (the result of a short-circuited optional chain) or a boolean. *)
Definition truthy (v : nullable bool) : bool :=
  match v with
  | Some b => b
  | None => false
  end.

(** ToBoolean on a string: only the empty string is falsy. *)
Definition truthy_string (s : string) : bool :=
  match s with
  | EmptyString => false
  | String _ _ => true
  end.

(** [a || b]: [b] is evaluated only when [a] completes with a falsy value. *)
Definition or_else (a b : completion (nullable bool))
  : completion (nullable bool) :=
  match a with
  | Normal v => if truthy v then Normal v else b
  | Throw e => Throw e
  end.

(** [String.prototype.includes]: [t] occurs in [s] as a contiguous run. *)
Fixpoint String_includes (s t : string) : bool :=
  String.prefix t s
  || match s with
     | EmptyString => false
     | String _ s' => String_includes s' t
     end.

(** [Array.prototype.some]: stops at the first truthy callback result; an
    exception raised by the callback propagates. *)
Fixpoint Array_some {A} (cb : A -> completion (nullable bool)) (l : list A)
  : completion bool :=
  match l with
  | [] => Normal false
  | x :: l' =>
      match cb x with
      | Normal v => if truthy v then Normal true else Array_some cb l'
      | Throw e => Throw e
      end
  end.

(** [Array.prototype.filter]: the callback runs on every element in index
    order; the elements with a truthy result are kept, in order. *)
Fixpoint Array_filter {A} (cb : A -> completion (nullable bool)) (l : list A)
  : completion (list A) :=
  match l with
  | [] => Normal []
  | x :: l' =>
      match cb x with
      | Normal v =>
          match Array_filter cb l' with
          | Normal kept => Normal (if truthy v then x :: kept else kept)
          | Throw e => Throw e
          end
      | Throw e => Throw e
      end
  end.

(** Decimal rendering of a number in a template literal. *)
Definition Number_toString (n : nat) : string :=
  NilEmpty.string_of_uint (Nat.to_uint n).

End JS.

Import JS.

Notation "'let*' x ':=' m 'in' k" := (JS.bind m (fun x => k))
  (at level 10, x name, m at level 100, k at level 200).

(** The case mapping of the runtime ([String.prototype.toLowerCase]).  The
    development is parametric in it; [ascii_case] below folds the ASCII
    letters and is used to run the model. *)
Class CaseMapping := toLowerCase : string -> string.

Definition ascii_lower (c : ascii) : ascii :=
  let n := nat_of_ascii c in
  if ((65 <=? n) && (n <=? 90))%nat then ascii_of_nat (n + 32) else c.

Fixpoint ascii_toLowerCase (s : string) : string :=
  match s with
  | EmptyString => EmptyString
  | String c s' => String (ascii_lower c) (ascii_toLowerCase s')
  end.

Definition ascii_case : CaseMapping := ascii_toLowerCase.

(** ** Data model: [interface ResumeData]

    Records arrive as parsed JSON, so every property the page reads may be
    absent at run time whatever the interface says; absence is [None]. *)

Record PersonalInfo : Type := {
  name : nullable string;
  email : nullable string;
  phone : nullable string;
  location : nullable string
}.

Record Education : Type := {
  degree : nullable string;
  institution : nullable string;
  year : nullable string;
  gpa : nullable string
}.

Record Experience : Type := {
  title : nullable string;
  company : nullable string;
  duration : nullable string;
  responsibilities : nullable (list (nullable string))
}.

Record Project : Type := {
  project_name : nullable string;
  description : nullable string;
  technologies : nullable (list (nullable string))
}.

Record ResumeData : Type := {
  personalInfo : nullable PersonalInfo;
  education : nullable (list (nullable Education));
  experience : nullable (list (nullable Experience));
  projects : nullable (list (nullable Project));
  skills : nullable (list (nullable string));
  certifications : nullable (list (nullable string));
  fileUrl : nullable string
}.

(** An element of the fetched array; [None] is a [null] element. *)
Definition Resume : Type := nullable ResumeData.

(** ** Page state: the seven [useState] cells *)

Record State : Type := {
  resumes : list Resume;
  filteredResumes : list Resume;
  searchTerm : string;
  filterType : string;
  skillFilter : string;
  locationFilter : string;
  experienceFilter : string
}.

Definition initialState : State := {|
  resumes := [];
  filteredResumes := [];
  searchTerm := "";
  filterType := "all";
  skillFilter := "";
  locationFilter := "";
  experienceFilter := ""
|}.

Definition setResumes (v : list Resume) (st : State) : State :=
  {| resumes := v;
     filteredResumes := filteredResumes st;
     searchTerm := searchTerm st;
     filterType := filterType st;
     skillFilter := skillFilter st;
     locationFilter := locationFilter st;
     experienceFilter := experienceFilter st |}.

Definition setFilteredResumes (v : list Resume) (st : State) : State :=
  {| resumes := resumes st;
     filteredResumes := v;
     searchTerm := searchTerm st;
     filterType := filterType st;
     skillFilter := skillFilter st;
     locationFilter := locationFilter st;
     experienceFilter := experienceFilter st |}.

Definition setSearchTerm (v : string) (st : State) : State :=
  {| resumes := resumes st;
     filteredResumes := filteredResumes st;
     searchTerm := v;
     filterType := filterType st;
     skillFilter := skillFilter st;
     locationFilter := locationFilter st;
     experienceFilter := experienceFilter st |}.

Definition setFilterType (v : string) (st : State) : State :=
  {| resumes := resumes st;
     filteredResumes := filteredResumes st;
     searchTerm := searchTerm st;
     filterType := v;
     skillFilter := skillFilter st;
     locationFilter := locationFilter st;
     experienceFilter := experienceFilter st |}.

Definition setSkillFilter (v : string) (st : State) : State :=
  {| resumes := resumes st;
     filteredResumes := filteredResumes st;
     searchTerm := searchTerm st;
     filterType := filterType st;
     skillFilter := v;
     locationFilter := locationFilter st;
     experienceFilter := experienceFilter st |}.

Definition setLocationFilter (v : string) (st : State) : State :=
  {| resumes := resumes st;
     filteredResumes := filteredResumes st;
     searchTerm := searchTerm st;
     filterType := filterType st;
     skillFilter := skillFilter st;
     locationFilter := v;
     experienceFilter := experienceFilter st |}.

Definition setExperienceFilter (v : string) (st : State) : State :=
  {| resumes := resumes st;
     filteredResumes := filteredResumes st;
     searchTerm := searchTerm st;
     filterType := filterType st;
     skillFilter := skillFilter st;
     locationFilter := locationFilter st;
     experienceFilter := v |}.

(** ** The filter effect (page.tsx, lines 80-124) *)

Section FilterEffect.
Context {L : CaseMapping}.

(** [s?.toLowerCase().includes(term)] on a possibly absent string: the
    chain short-circuits to [undefined] when [s] is absent. *)
Definition opt_lower_includes (s : nullable string) (term : string)
  : nullable bool :=
  match s with
  | Some s' => Some (String_includes (toLowerCase s') term)
  | None => None
  end.

(** [s.toLowerCase().includes(term)]: no optional chaining, an absent [s]
    raises. *)
Definition lower_includes (s : nullable string) (term : string)
  : completion (nullable bool) :=
  match s with
  | Some s' => Normal (Some (String_includes (toLowerCase s') term))
  | None => Throw TypeError
  end.

(** [resume?.personalInfo?.name?.toLowerCase().includes(term)] and the same
    chain for [email]. *)
Definition chain_personal (field : PersonalInfo -> nullable string)
    (resume : Resume) (term : string) : nullable bool :=
  match resume with
  | None => None
  | Some r =>
      match personalInfo r with
      | None => None
      | Some p => opt_lower_includes (field p) term
      end
  end.

(** [resume?.skills.some((skill) => skill.toLowerCase().includes(term))]:
    only [resume] is guarded. *)
Definition chain_skills (resume : Resume) (term : string)
  : completion (nullable bool) :=
  match resume with
  | None => Normal None
  | Some r =>
      match skills r with
      | None => Throw TypeError
      | Some l =>
          let* b := Array_some (fun skill => lower_includes skill term) l in
          Normal (Some b)
      end
  end.

(** Callback of the search-term filter (lines 87-90). *)
Definition searchCallback (term : string) (resume : Resume)
  : completion (nullable bool) :=
  or_else (Normal (chain_personal name resume term))
    (or_else (Normal (chain_personal email resume term))
       (chain_skills resume term)).

(** Callback of the skill filter (lines 96-100). *)
Definition skillCallback (skillFilter : string) (resume : Resume)
  : completion (nullable bool) :=
  let* r_skills := get resume skills in
  let* l := get r_skills id in
  let* b :=
    Array_some
      (fun skill => lower_includes skill (toLowerCase skillFilter)) l in
  Normal (Some b).

(** Callback of the location filter (lines 105-109):
    [resume.personalInfo.location?.toLowerCase().includes(...)]. *)
Definition locationCallback (locationFilter : string) (resume : Resume)
  : completion (nullable bool) :=
  let* r_info := get resume personalInfo in
  let* loc := get r_info location in
  Normal (opt_lower_includes loc (toLowerCase locationFilter)).

(** Callback of the experience filter (lines 114-120). *)
Definition experienceCallback (experienceFilter : string) (resume : Resume)
  : completion (nullable bool) :=
  let* r_exp := get resume experience in
  let* l := get r_exp id in
  let* b :=
    Array_some
      (fun exp =>
         or_else
           (let* t := get exp title in
            lower_includes t (toLowerCase experienceFilter))
           (let* c := get exp company in
            lower_includes c (toLowerCase experienceFilter))) l in
  Normal (Some b).

(** The value handed to [setFilteredResumes] at line 123. *)
Definition computeFiltered (st : State) : completion (list Resume) :=
  let filtered := resumes st in
  let* filtered :=
    (if truthy_string (searchTerm st)
     then let term := toLowerCase (searchTerm st) in
          Array_filter (searchCallback term) filtered
     else Normal filtered) in
  let* filtered :=
    (if truthy_string (skillFilter st)
     then Array_filter (skillCallback (skillFilter st)) filtered
     else Normal filtered) in
  let* filtered :=
    (if truthy_string (locationFilter st)
     then Array_filter (locationCallback (locationFilter st)) filtered
     else Normal filtered) in
  let* filtered :=
    (if truthy_string (experienceFilter st)
     then Array_filter (experienceCallback (experienceFilter st)) filtered
     else Normal filtered) in
  Normal filtered.

(** The effect itself: recompute, then store. *)
Definition filterEffect (st : State) : completion State :=
  let* filtered := computeFiltered st in
  Normal (setFilteredResumes filtered st).

End FilterEffect.

(** ** Handlers (page.tsx, lines 127-144) *)

Definition clearFilters (st : State) : State :=
  let st := setSearchTerm "" st in
  let st := setSkillFilter "" st in
  let st := setLocationFilter "" st in
  let st := setExperienceFilter "" st in
  setFilterType "all" st.

Definition handleFilterTypeChange (value : string) (st : State) : State :=
  let st := setFilterType value st in
  if String.eqb value "all"
  then
    let st := setSkillFilter "" st in
    let st := setLocationFilter "" st in
    setExperienceFilter "" st
  else st.

(** The four criterion cells, named, so that statements can range over
    "one of the criteria". *)
Inductive Criterion : Type :=
| SearchTerm
| SkillFilter
| LocationFilter
| ExperienceFilter.

Definition criterion (k : Criterion) (st : State) : string :=
  match k with
  | SearchTerm => searchTerm st
  | SkillFilter => skillFilter st
  | LocationFilter => locationFilter st
  | ExperienceFilter => experienceFilter st
  end.

Definition setCriterion (k : Criterion) (v : string) (st : State) : State :=
  match k with
  | SearchTerm => setSearchTerm v st
  | SkillFilter => setSkillFilter v st
  | LocationFilter => setLocationFilter v st
  | ExperienceFilter => setExperienceFilter v st
  end.

(** ** Re-running the filter effect after a handler

    The dependency list of the effect is [resumes] and the four criterion
    strings.  The handlers above never replace [resumes], so after one of
    them the effect runs exactly when a criterion string changed. *)

Definition deps_changed (prev next : State) : bool :=
  negb (String.eqb (searchTerm prev) (searchTerm next))
  || negb (String.eqb (skillFilter prev) (skillFilter next))
  || negb (String.eqb (locationFilter prev) (locationFilter next))
  || negb (String.eqb (experienceFilter prev) (experienceFilter next)).

Definition commit {L : CaseMapping} (handler : State -> State) (st : State)
  : completion State :=
  let next := handler st in
  if deps_changed st next then filterEffect next else Normal next.

(** A state in which the stored view is what the effect computes. *)
Definition settled {L : CaseMapping} (st : State) : Prop :=
  computeFiltered st = Normal (filteredResumes st).

(** ** Collaborators: toast, console, fetch and the spreadsheet writer *)

Module Toast.
Record t : Type := {
  title : string;
  description : string;
  variant : nullable string
}.
End Toast.

Record ExcelOptions : Type := {
  filename : string;
  sheetName : string
}.

(** The module [@/lib/excel] is imported by the page and is not part of the
    sources at hand: its row type and its flattening function are taken as
    parameters. *)
Class ExcelLib : Type := {
  Row : Type;
  prepareResumeDataForExcel : list Resume -> list Row
}.

(** What the single request meets: [fetch] resolves to a response or rejects;
    [response.json()] resolves to the parsed array or rejects. *)
Record Response : Type := {
  ok : bool;
  json : completion (list Resume)
}.

Definition Network : Type := string -> completion Response.

Section Effects.
Context {X : ExcelLib}.

(** Calls made to the outside, in program order. *)
Inductive Event : Type :=
| fetch (url : string)
| console_error (label : string) (error : exn)
| toast (args : Toast.t)
| exportToExcel (data : list Row) (options : ExcelOptions).

(** [fetchResumes] (lines 65-75), run once by the mount effect. *)
Definition fetchResumes (net : Network) (st : State) : State * list Event :=
  let attempt :=
    let* response := net "/api/resumes" in
    if negb (ok response)
    then Throw (Error "Failed to fetch resumes")
    else
      let* data := json response in
      Normal data in
  match attempt with
  | Normal data =>
      (setFilteredResumes data (setResumes data st), [fetch "/api/resumes"])
  | Throw error =>
      (st, [fetch "/api/resumes";
            console_error "Error fetching resumes:" error])
  end.

(** [handleExport] (lines 147-167); it leaves the state alone. *)
Definition handleExport (st : State) : list Event :=
  if Nat.eqb (length (filteredResumes st)) 0
  then
    [toast {| Toast.title := "No Data";
              Toast.description := "There is no data to export.";
              Toast.variant := Some "destructive" |}]
  else
    let excelData := prepareResumeDataForExcel (filteredResumes st) in
    [exportToExcel excelData
       {| filename := "all-resumes.xlsx"; sheetName := "Resumes" |};
     toast {| Toast.title := "Success";
              Toast.description :=
                "Successfully exported "
                +:+ Number_toString (length (filteredResumes st))
                +:+ " resumes to Excel.";
              Toast.variant := None |}].

Definition is_toast (e : Event) : bool :=
  match e with
  | toast _ => true
  | _ => false
  end.

Definition is_exportToExcel (e : Event) : bool :=
  match e with
  | exportToExcel _ _ => true
  | _ => false
  end.

Definition is_console_error (e : Event) : bool :=
  match e with
  | console_error _ _ => true
  | _ => false
  end.

End Effects.

(** ** Shape of the records

    [filter_safe] holds of a record in which every property the filter
    callbacks dereference without optional chaining is there: the record
    itself, its [personalInfo], its [skills] with every element, and its
    [experience] with every entry and each entry's [title] and [company].
    [name], [email] and [location] may be absent. *)

Definition present {A} (o : nullable A) : bool :=
  match o with
  | Some _ => true
  | None => false
  end.

Definition all_present {A} (p : A -> bool) (l : nullable (list (nullable A)))
  : bool :=
  match l with
  | Some l' =>
      forallb (fun x => match x with Some a => p a | None => false end) l'
  | None => false
  end.

Definition filter_safe (resume : Resume) : bool :=
  match resume with
  | None => false
  | Some r =>
      present (personalInfo r)
      && all_present (fun _ => true) (skills r)
      && all_present (fun e => present (title e) && present (company e))
           (experience r)
  end.

(** [conforms] holds of a record that has every property of
    [interface ResumeData]. *)
Definition conforms (resume : Resume) : bool :=
  match resume with
  | None => false
  | Some r =>
      match personalInfo r with
      | Some p =>
          present (name p) && present (email p) && present (phone p)
          && present (location p)
      | None => false
      end
      && all_present
           (fun e => present (degree e) && present (institution e)
                     && present (year e) && present (gpa e))
           (education r)
      && all_present
           (fun e => present (title e) && present (company e)
                     && present (duration e)
                     && all_present (fun _ => true) (responsibilities e))
           (experience r)
      && all_present
           (fun p => present (project_name p) && present (description p)
                     && all_present (fun _ => true) (technologies p))
           (projects r)
      && all_present (fun _ => true) (skills r)
      && all_present (fun _ => true) (certifications r)
      && present (fileUrl r)
  end.

(** ** The filter as the specification words it

    "Case-insensitive substring matching"; an absent field is
    "non-matching".  Each criterion, when non-empty, keeps the records that
    match it; the four are applied in the order search, skill, location,
    experience. *)

Section FilterSpec.
Context {L : CaseMapping}.

Definition spec_contains (field : nullable string) (q : string) : bool :=
  match field with
  | Some s => String_includes (toLowerCase s) (toLowerCase q)
  | None => false
  end.

Definition spec_personal (field : PersonalInfo -> nullable string)
    (resume : Resume) : nullable string :=
  match resume with
  | Some r =>
      match personalInfo r with
      | Some p => field p
      | None => None
      end
  | None => None
  end.

Definition spec_skills (resume : Resume) : list (nullable string) :=
  match resume with
  | Some r => match skills r with Some l => l | None => [] end
  | None => []
  end.

Definition spec_experience (resume : Resume) : list (nullable Experience) :=
  match resume with
  | Some r => match experience r with Some l => l | None => [] end
  | None => []
  end.

Definition spec_any_skill (q : string) (resume : Resume) : bool :=
  existsb (fun skill => spec_contains skill q) (spec_skills resume).

Definition spec_matches (k : Criterion) (q : string) (resume : Resume)
  : bool :=
  match k with
  | SearchTerm =>
      spec_contains (spec_personal name resume) q
      || spec_contains (spec_personal email resume) q
      || spec_any_skill q resume
  | SkillFilter => spec_any_skill q resume
  | LocationFilter => spec_contains (spec_personal location resume) q
  | ExperienceFilter =>
      existsb
        (fun entry =>
           match entry with
           | Some e => spec_contains (title e) q
                       || spec_contains (company e) q
           | None => false
           end)
        (spec_experience resume)
  end.

Definition is_empty (q : string) : bool := String.eqb q "".

(** One filter of the algorithm: inactive when its criterion is empty. *)
Definition spec_step (k : Criterion) (st : State) (view : list Resume)
  : list Resume :=
  if is_empty (criterion k st) then view
  else List.filter (spec_matches k (criterion k st)) view.

Definition spec_filtered (st : State) : list Resume :=
  spec_step ExperienceFilter st
    (spec_step LocationFilter st
       (spec_step SkillFilter st
          (spec_step SearchTerm st (resumes st)))).

(** "A record must pass every active filter." *)
Definition spec_passes_one (k : Criterion) (st : State) (resume : Resume)
  : bool :=
  is_empty (criterion k st) || spec_matches k (criterion k st) resume.

Definition spec_passes (st : State) (resume : Resume) : bool :=
  spec_passes_one SearchTerm st resume
  && spec_passes_one SkillFilter st resume
  && spec_passes_one LocationFilter st resume
  && spec_passes_one ExperienceFilter st resume.

End FilterSpec.

(** ** Vocabulary for the statements *)

(** Wherever the callback [cb] completes, its result is truthy exactly when
    the predicate [p] holds. *)
Definition agrees {A} (cb : A -> completion (nullable bool)) (p : A -> bool)
    (x : A) : Prop :=
  forall v, cb x = Normal v -> truthy v = p x.

(** The callback [cb] completes on [x]. *)
Definition completes {A} (cb : A -> completion (nullable bool)) (x : A)
  : Prop :=
  exists v, cb x = Normal v.

(** The callback the effect hands to [filter] for criterion [k] with
    criterion string [q], and the corresponding guarded filter. *)
Definition callback {L : CaseMapping} (k : Criterion) (q : string)
  : Resume -> completion (nullable bool) :=
  match k with
  | SearchTerm => searchCallback (toLowerCase q)
  | SkillFilter => skillCallback q
  | LocationFilter => locationCallback q
  | ExperienceFilter => experienceCallback q
  end.

Definition code_step {L : CaseMapping} (k : Criterion) (st : State)
    (view : list Resume) : completion (list Resume) :=
  if truthy_string (criterion k st)
  then Array_filter (callback k (criterion k st)) view
  else Normal view.

(** Ways the request of [fetchResumes] fails, with the exception caught, and
    the way it succeeds, with the parsed array. *)
Inductive fetch_fails (net : Network) : exn -> Prop :=
| fetch_rejected e :
    net "/api/resumes" = Throw e -> fetch_fails net e
| fetch_not_ok response :
    net "/api/resumes" = Normal response ->
    ok response = false ->
    fetch_fails net (Error "Failed to fetch resumes")
| fetch_json_rejected response e :
    net "/api/resumes" = Normal response ->
    ok response = true ->
    json response = Throw e ->
    fetch_fails net e.

Inductive fetch_succeeds (net : Network) : list Resume -> Prop :=
| fetch_ok response data :
    net "/api/resumes" = Normal response ->
    ok response = true ->
    json response = Normal data ->
    fetch_succeeds net data.

(** Sample networks. *)
Definition net_down : Network := fun _ => Throw TypeError.

Definition net_500 : Network :=
  fun _ => Normal {| ok := false; json := Throw SyntaxError |}.

Definition net_serving (data : list Resume) : Network :=
  fun _ => Normal {| ok := true; json := Normal data |}.

(** ** Sample data: the record of the specification's example, and
    records that lack a property *)

Definition annLee : Resume :=
  Some {|
    personalInfo :=
      Some {| name := Some "Ann Lee"; email := Some "a@x.com";
              phone := Some "555-0100"; location := Some "Austin" |};
    education := Some [];
    experience :=
      Some [Some {| title := Some "Engineer"; company := Some "Acme";
                    duration := Some "2020-2024";
                    responsibilities := Some [] |}];
    projects := Some [];
    skills := Some [Some "Go"; Some "SQL"];
    certifications := Some [];
    fileUrl := Some "/files/ann.pdf"
  |}.

Definition bobRay : Resume :=
  Some {|
    personalInfo :=
      Some {| name := Some "Bob Ray"; email := Some "bob@y.org";
              phone := Some "555-0101"; location := Some "Boston" |};
    education := Some [];
    experience :=
      Some [Some {| title := Some "Analyst"; company := Some "Initech";
                    duration := Some "2019-2023";
                    responsibilities := Some [] |}];
    projects := Some [];
    skills := Some [Some "Java"; Some "SQL"];
    certifications := Some [];
    fileUrl := Some "/files/bob.pdf"
  |}.

(** No [location], no [name]: tolerated by the optional chains. *)
Definition noLocation : Resume :=
  Some {|
    personalInfo :=
      Some {| name := None; email := Some "c@z.net";
              phone := None; location := None |};
    education := Some [];
    experience :=
      Some [Some {| title := Some "Engineer"; company := Some "Acme";
                    duration := None; responsibilities := None |}];
    projects := None;
    skills := Some [Some "Go"];
    certifications := None;
    fileUrl := None
  |}.

(** An experience entry without [title]. *)
Definition noTitle : Resume :=
  Some {|
    personalInfo :=
      Some {| name := Some "Cy Doe"; email := Some "cy@z.net";
              phone := Some "555-0102"; location := Some "Denver" |};
    education := Some [];
    experience :=
      Some [Some {| title := None; company := Some "Acme";
                    duration := Some "2021"; responsibilities := Some [] |}];
    projects := Some [];
    skills := Some [Some "Go"];
    certifications := Some [];
    fileUrl := Some "/files/cy.pdf"
  |}.

Definition withResumes (c : list Resume) : State := setResumes c initialState.

(** A stand-in for [@/lib/excel] to run [handleExport] with: one row per
    record, the row being the record's name. *)
Definition name_rows : ExcelLib := {|
  Row := string;
  prepareResumeDataForExcel :=
    map (fun resume =>
           match spec_personal name resume with
           | Some s => s
           | None => ""
           end)
|}.

(** A record without [skills], and one without [personalInfo]. *)
Definition noSkills : Resume :=
  Some {|
    personalInfo :=
      Some {| name := Some "Di Fox"; email := Some "di@w.io";
              phone := Some "555-0103"; location := Some "Erie" |};
    education := Some [];
    experience := Some [];
    projects := Some [];
    skills := None;
    certifications := Some [];
    fileUrl := Some "/files/di.pdf"
  |}.

Definition noPersonalInfo : Resume :=
  Some {|
    personalInfo := None;
    education := Some [];
    experience := Some [];
    projects := Some [];
    skills := Some [Some "Go"];
    certifications := Some [];
    fileUrl := Some "/files/anon.pdf"
  |}.

(** Sample states. *)
Definition st_ann_sql : State :=
  setSkillFilter "sql" (setSearchTerm "ann" (withResumes [annLee; bobRay])).

Definition st_ann_sql_settled : State :=
  setFilteredResumes [annLee] st_ann_sql.

Definition st_search_a : State :=
  setSearchTerm "a" (withResumes [annLee; bobRay]).

Definition st_no_title : State :=
  setExperienceFilter "acme" (withResumes [noTitle]).

Definition st_no_location : State :=
  setLocationFilter "aus"
    (setSearchTerm "go" (withResumes [noLocation; annLee])).

Definition st_malformed_unfiltered : State :=
  withResumes [noTitle; None; noSkills; annLee].

Definition st_two_visible : State :=
  setFilteredResumes [annLee; bobRay] (withResumes [annLee; bobRay]).

(** ** What the component renders (page.tsx, lines 169-310)

    The dynamic parts of the returned tree: the heading, the controls that
    are conditionally rendered, and the table rows. *)

(** [Array.prototype.map] with a callback that may raise. *)
Fixpoint Array_map {A B} (cb : A -> completion B) (l : list A)
  : completion (list B) :=
  match l with
  | [] => Normal []
  | x :: l' =>
      let* y := cb x in
      let* ys := Array_map cb l' in
      Normal (y :: ys)
  end.

(** A child [{s}] of an element: [undefined] and [null] render nothing. *)
Definition text_of (s : nullable string) : string :=
  match s with
  | Some s' => s'
  | None => ""
  end.

(** [resume?.personalInfo?.name] and its siblings (lines 260-262). *)
Definition opt_personal (field : PersonalInfo -> nullable string)
    (resume : Resume) : nullable string :=
  match resume with
  | None => None
  | Some r =>
      match personalInfo r with
      | None => None
      | Some p => field p
      end
  end.

(** The skills cell (lines 270-285): one chip per element of
    [resume.skills.slice(0, 3)], then a [+n] badge when there are more than
    three skills. *)
Record SkillsCell : Type := {
  chips : list (nullable string);
  badge : nullable string
}.

Definition renderSkills (l : list (nullable string)) : SkillsCell :=
  {| chips := take 3 l;
     badge := if (3 <? length l)%nat
              then Some ("+" +:+ Number_toString (length l - 3))
              else None |}.

(** One [TableRow] (lines 259-303): the text of each cell and the link. *)
Record TableRow : Type := {
  nameCell : nullable string;
  emailCell : nullable string;
  locationCell : nullable string;
  educationCell : list string;
  skillsCell : SkillsCell;
  experienceCell : list string;
  viewHref : nullable string
}.

Definition renderRow (resume : Resume) : completion TableRow :=
  let nameCell := opt_personal name resume in
  let emailCell := opt_personal email resume in
  let locationCell := opt_personal location resume in
  let* r_education := get resume education in
  let* educations := get r_education id in
  let* educationCell :=
    Array_map
      (fun edu =>
         let* d := get edu degree in
         let* i := get edu institution in
         Normal (text_of d +:+ " - " +:+ text_of i)) educations in
  let* r_skills := get resume skills in
  let* skills_array := get r_skills id in
  let skillsCell := renderSkills skills_array in
  let* r_experience := get resume experience in
  let* experiences := get r_experience id in
  let* experienceCell :=
    Array_map
      (fun exp =>
         let* t := get exp title in
         let* c := get exp company in
         Normal (text_of t +:+ " at " +:+ text_of c)) experiences in
  let* href := get resume fileUrl in
  Normal {| nameCell := nameCell;
            emailCell := emailCell;
            locationCell := locationCell;
            educationCell := educationCell;
            skillsCell := skillsCell;
            experienceCell := experienceCell;
            viewHref := href |}.

(** The heading of line 176. *)
Definition heading_text (st : State) : string :=
  "All Resumes ("
  +:+ Number_toString (length (filteredResumes st))
  +:+ " of "
  +:+ Number_toString (length (resumes st))
  +:+ ")".

(** Line 207: the Clear Filters button is rendered when
    [searchTerm || skillFilter || locationFilter || experienceFilter] is
    truthy. *)
Definition clearFiltersButton (st : State) : bool :=
  truthy_string (searchTerm st)
  || truthy_string (skillFilter st)
  || truthy_string (locationFilter st)
  || truthy_string (experienceFilter st).

(** Lines 215-242: the inputs of the second row, each with the criterion it
    edits and the value it shows. *)
Definition filterInputs (st : State) : list (Criterion * string) :=
  if negb (String.eqb (filterType st) "all")
  then
    (if String.eqb (filterType st) "skills"
     then [(SkillFilter, skillFilter st)] else [])
    ++ (if String.eqb (filterType st) "location"
        then [(LocationFilter, locationFilter st)] else [])
    ++ (if String.eqb (filterType st) "experience"
        then [(ExperienceFilter, experienceFilter st)] else [])
  else [].

(** Lines 201-204: the values the mode selector offers. *)
Definition modeOptions : list string :=
  ["all"; "skills"; "location"; "experience"].

(** Lines 257-258: [filteredResumes.length > 0 && filteredResumes.map(...)]. *)
Definition renderRows (st : State) : completion (list TableRow) :=
  if (0 <? length (filteredResumes st))%nat
  then Array_map renderRow (filteredResumes st)
  else Normal [].

Record Rendered : Type := {
  heading : string;
  searchInput : string;
  modeSelect : string;
  clearButton : bool;
  secondRow : list (Criterion * string);
  tableRows : list TableRow
}.

Definition render (st : State) : completion Rendered :=
  let* rows := renderRows st in
  Normal {| heading := heading_text st;
            searchInput := searchTerm st;
            modeSelect := filterType st;
            clearButton := clearFiltersButton st;
            secondRow := filterInputs st;
            tableRows := rows |}.

(** A record the table can render: the record itself, its [education] and
    [experience] arrays with every entry, and its [skills] array are there.
    Personal fields, [degree], [institution], [title], [company], the skills
    themselves and [fileUrl] may be absent. *)
Definition row_safe (resume : Resume) : bool :=
  match resume with
  | None => false
  | Some r =>
      all_present (fun _ => true) (education r)
      && present (skills r)
      && all_present (fun _ => true) (experience r)
  end.

(** ** The page as a transition system

    What the user can do is what the rendered controls offer: type into the
    search box, type into the filter input of the second row, pick a mode,
    press Clear Filters when it is there, press Export. *)

Inductive UserAction : Type :=
| TypeSearch (v : string)
| TypeFilter (k : Criterion) (v : string)
| SelectMode (value : string)
| ClickClearFilters
| ClickExport.

Definition Criterion_eqb (k1 k2 : Criterion) : bool :=
  match k1, k2 with
  | SearchTerm, SearchTerm
  | SkillFilter, SkillFilter
  | LocationFilter, LocationFilter
  | ExperienceFilter, ExperienceFilter => true
  | _, _ => false
  end.

Definition offered (page : Rendered) (a : UserAction) : bool :=
  match a with
  | TypeSearch _ => true
  | TypeFilter k _ =>
      existsb (fun input => Criterion_eqb k (fst input)) (secondRow page)
  | SelectMode value => existsb (String.eqb value) modeOptions
  | ClickClearFilters => clearButton page
  | ClickExport => true
  end.

(** The state update each control is wired to ([onChange], [onValueChange],
    [onClick]); [handleExport] sets no state. *)
Definition dispatch (a : UserAction) : State -> State :=
  match a with
  | TypeSearch v => setSearchTerm v
  | TypeFilter k v => setCriterion k v
  | SelectMode value => handleFilterTypeChange value
  | ClickClearFilters => clearFilters
  | ClickExport => fun st => st
  end.

(** States the page goes through: the mounted page; a rendered page after an
    offered action and the re-render; a page after the response has arrived
    and the filter effect has run on the new collection.  (A failed request
    changes nothing.  The request is issued once; allowing the arrival at
    any point covers every interleaving with the user's actions.) *)
Inductive reachable {L : CaseMapping} {X : ExcelLib} : State -> Prop :=
| reach_mount : reachable initialState
| reach_action st page a st' :
    reachable st ->
    render st = Normal page ->
    offered page a = true ->
    commit (dispatch a) st = Normal st' ->
    reachable st'
| reach_loaded st net data st' :
    reachable st ->
    fetch_succeeds net data ->
    filterEffect (fst (fetchResumes net st)) = Normal st' ->
    reachable st'.

(** More sample data: a record without [education], a record with five
    skills, and a page after loading two records, picking the skills mode
    and typing "sql". *)
Definition noEducation : Resume :=
  Some {|
    personalInfo :=
      Some {| name := Some "Ed Gray"; email := Some "ed@v.com";
              phone := Some "555-0104"; location := Some "Fargo" |};
    education := None;
    experience := Some [];
    projects := Some [];
    skills := Some [Some "Go"];
    certifications := Some [];
    fileUrl := Some "/files/ed.pdf"
  |}.

Definition fiveSkills : Resume :=
  Some {|
    personalInfo :=
      Some {| name := Some "Flo Hill"; email := Some "flo@u.com";
              phone := Some "555-0105"; location := Some "Gary" |};
    education :=
      Some [Some {| degree := Some "BSc"; institution := Some "MIT";
                    year := Some "2015"; gpa := None |}];
    experience :=
      Some [Some {| title := None; company := Some "Acme";
                    duration := None; responsibilities := None |}];
    projects := Some [];
    skills := Some [Some "Go"; Some "SQL"; Some "C"; Some "Rust"; Some "Lua"];
    certifications := Some [];
    fileUrl := Some "/files/flo.pdf"
  |}.

Definition st_loaded : State :=
  setFilteredResumes [annLee; bobRay] (withResumes [annLee; bobRay]).

Definition st_skills_mode : State := setFilterType "skills" st_loaded.

Definition st_skills_sql : State := setSkillFilter "sql" st_skills_mode.

Definition st_ANN_sql : State := setSearchTerm "ANN" st_ann_sql.

Definition has_personalInfo (resume : Resume) : bool :=
  match resume with
  | Some r => present (personalInfo r)
  | None => false
  end.

Definition is_fetch {X : ExcelLib} (e : Event) : bool :=
  match e with
  | fetch _ => true
  | _ => false
  end.

(** The callback [cb] completes with a truthy value on [x]. *)
Definition accepts {A} (cb : A -> completion (nullable bool)) (x : A)
  : Prop :=
  exists v, cb x = Normal v /\ truthy v = true.

(** In mode "all" only the search term can be non-empty. *)
Definition mode_all_inv (st : State) : Prop :=
  filterType st = "all" ->
  skillFilter st = "" /\ locationFilter st = "" /\ experienceFilter st = "".

(** States with a [null] element, and states with a single criterion. *)
Definition st_null_search : State :=
  setSearchTerm "go" (withResumes [None; noLocation; None]).

Definition st_null_skill : State :=
  setSkillFilter "go" (withResumes [annLee; None]).

Definition st_location_only : State :=
  setLocationFilter "aus" (withResumes [noLocation; annLee]).

Definition st_sql_only : State := setSkillFilter "sql" initialState.

Definition st_typed_before_load : State := setSearchTerm "ann" initialState.

(** * Properties *)

(** ** The JavaScript layer *)

Section ArrayLemmas.
Context {A : Type}.
Implicit Types (cb : A -> completion (nullable bool)) (p : A -> bool).
Implicit Types (l kept : list A).

Lemma Array_filter_sublist cb l kept :
  Array_filter cb l = Normal kept -> kept `sublist_of` l.
Proof.
  revert kept. induction l as [|x l IH]; intros kept; simpl.
  - intros [= <-]. constructor.
  - destruct (cb x) as [v|]; [|discriminate].
    destruct (Array_filter cb l) as [kept'|]; [|discriminate].
    intros [= <-]. specialize (IH kept' eq_refl).
    destruct (truthy v); by constructor.
Qed.

Lemma Array_filter_sound cb p l kept :
  (forall x, agrees cb p x) ->
  Array_filter cb l = Normal kept -> kept = List.filter p l.
Proof.
  intros Hcb. revert kept. induction l as [|x l IH]; intros kept; simpl.
  - by intros [= <-].
  - destruct (cb x) as [v|] eqn:Hx; [|discriminate].
    destruct (Array_filter cb l) as [kept'|]; [|discriminate].
    intros [= <-]. rewrite <- (Hcb x v Hx), (IH kept' eq_refl).
    reflexivity.
Qed.

Lemma Array_filter_complete cb l :
  Forall (completes cb) l -> exists kept, Array_filter cb l = Normal kept.
Proof.
  induction 1 as [|x l [v Hx] _ [kept IH]]; simpl.
  - by eexists.
  - rewrite Hx, IH. by eexists.
Qed.

Lemma Array_some_sound cb p l b :
  (forall x, agrees cb p x) ->
  Array_some cb l = Normal b -> b = existsb p l.
Proof.
  intros Hcb. induction l as [|x l IH]; simpl.
  - by intros [= <-].
  - destruct (cb x) as [v|] eqn:Hx; [|discriminate].
    rewrite <- (Hcb x v Hx). destruct (truthy v); simpl.
    + by intros [= <-].
    + apply IH.
Qed.

Lemma Array_some_complete cb l :
  Forall (completes cb) l -> exists b, Array_some cb l = Normal b.
Proof.
  induction 1 as [|x l [v Hx] _ [b IH]]; simpl.
  - by eexists.
  - rewrite Hx. destruct (truthy v); [by eexists|]. rewrite IH. by eexists.
Qed.

End ArrayLemmas.

Lemma truthy_string_is_empty (q : string) :
  truthy_string q = negb (is_empty q).
Proof. by destruct q. Qed.

Lemma is_empty_true (q : string) : is_empty q = true <-> q = "".
Proof. destruct q; simpl; split; intros; done. Qed.

Lemma forallb_filter {A} (p q : A -> bool) (l : list A) :
  forallb p l = true -> forallb p (List.filter q l) = true.
Proof.
  induction l as [|x l IH]; simpl; [done|].
  intros [Hx Hl]%andb_true_iff. destruct (q x); simpl; [|by apply IH].
  by rewrite Hx, IH.
Qed.

Lemma filter_andb {A} (p q : A -> bool) (l : list A) :
  List.filter q (List.filter p l) = List.filter (fun x => p x && q x) l.
Proof.
  induction l as [|x l IH]; simpl; [done|].
  destruct (p x); simpl; [|done]. destruct (q x); by rewrite IH.
Qed.

Lemma filter_length_le {A} (p : A -> bool) (l : list A) :
  length (List.filter p l) <= length l.
Proof. induction l as [|x l IH]; simpl; [lia|]. destruct (p x); simpl; lia. Qed.

Lemma filter_none {A} (p : A -> bool) (l : list A) :
  Forall (fun x => p x = false) l -> List.filter p l = [].
Proof. induction 1 as [|x l Hx _ IH]; simpl; [done|]. by rewrite Hx. Qed.

Lemma filter_ext_eq {A} (p q : A -> bool) (l : list A) :
  (forall x, p x = q x) -> List.filter p l = List.filter q l.
Proof. intros E. induction l as [|x l IH]; simpl; [done|]. by rewrite E, IH. Qed.

Lemma filter_all {A} (l : list A) : List.filter (fun _ => true) l = l.
Proof. induction l as [|x l IH]; simpl; [done|]. by rewrite IH. Qed.

(** ** The callbacks against the worded predicates *)

Section Callbacks.
Context {L : CaseMapping}.

Lemma chain_personal_contains field resume q :
  truthy (chain_personal field resume (toLowerCase q))
  = spec_contains (spec_personal field resume) q.
Proof.
  destruct resume as [r|]; simpl; [|done].
  destruct (personalInfo r) as [p|]; simpl; [|done].
  by destruct (field p).
Qed.

Lemma lower_includes_agrees q (s : nullable string) :
  agrees (fun skill => lower_includes skill (toLowerCase q))
    (fun skill => spec_contains skill q) s.
Proof. intros v. destruct s; simpl; [|done]. by intros [= <-]. Qed.

Lemma lower_includes_completes q (s : nullable string) :
  present s = true ->
  completes (fun skill => lower_includes skill (toLowerCase q)) s.
Proof. destruct s; [|done]. intros _. by eexists. Qed.

Lemma chain_skills_agrees q resume v :
  chain_skills resume (toLowerCase q) = Normal v ->
  truthy v = spec_any_skill q resume.
Proof.
  destruct resume as [r|]; simpl; [|by intros [= <-]].
  unfold spec_any_skill. simpl. destruct (skills r) as [l|]; [|done].
  destruct (Array_some _ l) as [b|] eqn:Hsome; simpl; [|done].
  intros [= <-]. simpl.
  eapply Array_some_sound, Hsome. apply lower_includes_agrees.
Qed.

Lemma experience_entry_agrees q (entry : nullable Experience) :
  agrees
    (fun exp =>
       or_else
         (let* t := get exp title in lower_includes t (toLowerCase q))
         (let* c := get exp company in lower_includes c (toLowerCase q)))
    (fun entry =>
       match entry with
       | Some e => spec_contains (title e) q || spec_contains (company e) q
       | None => false
       end) entry.
Proof.
  intros v. destruct entry as [e|]; simpl; [|done].
  destruct (title e) as [t|]; simpl; [|done].
  destruct (String_includes (toLowerCase t) (toLowerCase q)); simpl.
  - by intros [= <-].
  - destruct (company e) as [c|]; simpl; [|done]. by intros [= <-].
Qed.

Lemma experience_entry_completes q (entry : nullable Experience) :
  match entry with
  | Some e => present (title e) && present (company e)
  | None => false
  end = true ->
  completes
    (fun exp =>
       or_else
         (let* t := get exp title in lower_includes t (toLowerCase q))
         (let* c := get exp company in lower_includes c (toLowerCase q)))
    entry.
Proof.
  destruct entry as [e|]; [|done]. unfold completes. simpl.
  destruct (title e) as [t|], (company e) as [c|]; try done. intros _. simpl.
  destruct (String_includes (toLowerCase t) (toLowerCase q)); by eexists.
Qed.

(** Whenever a callback completes, it decides the worded predicate. *)
Lemma callback_agrees k q resume :
  agrees (callback k q) (spec_matches k q) resume.
Proof.
  intros v. destruct k; simpl.
  - unfold searchCallback, or_else.
    rewrite <- !chain_personal_contains.
    destruct (truthy (chain_personal name _ _)) eqn:Hn.
    { intros [= <-]. by rewrite Hn. }
    destruct (truthy (chain_personal email _ _)) eqn:He.
    { intros [= <-]. by rewrite He. }
    simpl. apply chain_skills_agrees.
  - unfold skillCallback, spec_any_skill.
    destruct resume as [r|]; simpl; [|done].
    destruct (skills r) as [l|]; simpl; [|done].
    destruct (Array_some _ l) as [b|] eqn:Hsome; simpl; [|done].
    intros [= <-]. simpl.
    eapply Array_some_sound, Hsome. apply lower_includes_agrees.
  - unfold locationCallback.
    destruct resume as [r|]; simpl; [|done].
    destruct (personalInfo r) as [p|]; simpl; [|done].
    intros [= <-]. by destruct (location p).
  - unfold experienceCallback.
    destruct resume as [r|]; simpl; [|done].
    destruct (experience r) as [l|]; simpl; [|done].
    destruct (Array_some _ l) as [b|] eqn:Hsome; simpl; [|done].
    intros [= <-]. simpl.
    eapply Array_some_sound, Hsome. apply experience_entry_agrees.
Qed.

Lemma all_present_Forall {A} (p : A -> bool) l :
  forallb (fun x => match x with Some a => p a | None => false end) l = true ->
  Forall (fun x => match x with Some a => p a | None => false end = true) l.
Proof.
  induction l as [|x l IH]; simpl; [constructor|].
  intros [Hx Hl]%andb_true_iff. constructor; [exact Hx|by apply IH].
Qed.

(** On a record of the safe shape every callback completes. *)
Lemma callback_completes k q resume :
  filter_safe resume = true -> completes (callback k q) resume.
Proof.
  destruct resume as [r|]; simpl; [|done].
  intros [[Hinfo Hskills]%andb_true_iff Hexp]%andb_true_iff.
  destruct (personalInfo r) as [p|] eqn:Hp; [clear Hinfo|done].
  destruct (skills r) as [ls|] eqn:Hs; [|done].
  destruct (experience r) as [le|] eqn:He; [|done].
  simpl in Hskills, Hexp.
  apply all_present_Forall in Hskills, Hexp.
  assert (Hsk : forall q', exists b,
             Array_some (fun skill => lower_includes skill (toLowerCase q')) ls
             = Normal b).
  { intros q'. apply Array_some_complete.
    eapply Forall_impl; [exact Hskills|]. intros s Hpres.
    apply lower_includes_completes. by destruct s. }
  unfold completes. destruct k; simpl.
  - unfold searchCallback, or_else, chain_skills. simpl. rewrite Hp, Hs.
    destruct (truthy (opt_lower_includes (name p) _)); [by eexists|].
    destruct (truthy (opt_lower_includes (email p) _)); [by eexists|].
    destruct (Hsk q) as [b ->]. by eexists.
  - unfold skillCallback. simpl. rewrite Hs. simpl.
    destruct (Hsk q) as [b ->]. by eexists.
  - unfold locationCallback. simpl. rewrite Hp. simpl. by eexists.
  - unfold experienceCallback. simpl. rewrite He. simpl.
    destruct (Array_some_complete
                (fun exp =>
                   or_else
                     (let* t := get exp title in
                      lower_includes t (toLowerCase q))
                     (let* c := get exp company in
                      lower_includes c (toLowerCase q))) le) as [b ->].
    + eapply Forall_impl; [exact Hexp|]. intros e Hpres.
      by apply experience_entry_completes.
    + by eexists.
Qed.

End Callbacks.

(** ** The filter engine *)

Section FilterEngine.
Context {L : CaseMapping}.

Lemma computeFiltered_steps st :
  computeFiltered st =
  let* v1 := code_step SearchTerm st (resumes st) in
  let* v2 := code_step SkillFilter st v1 in
  let* v3 := code_step LocationFilter st v2 in
  let* v4 := code_step ExperienceFilter st v3 in
  Normal v4.
Proof. reflexivity. Qed.

Lemma code_step_sound k st view v :
  code_step k st view = Normal v -> v = spec_step k st view.
Proof.
  unfold code_step, spec_step. rewrite truthy_string_is_empty.
  destruct (is_empty (criterion k st)); simpl.
  - by intros [= <-].
  - apply Array_filter_sound. intros x. apply callback_agrees.
Qed.

Lemma code_step_sublist k st view v :
  code_step k st view = Normal v -> v `sublist_of` view.
Proof.
  unfold code_step. destruct (truthy_string (criterion k st)).
  - apply Array_filter_sublist.
  - by intros [= <-].
Qed.

Lemma code_step_safe k st view :
  forallb filter_safe view = true ->
  code_step k st view = Normal (spec_step k st view).
Proof.
  intros Hsafe.
  assert (exists v, code_step k st view = Normal v) as [v Hv].
  { unfold code_step. destruct (truthy_string (criterion k st)).
    - apply Array_filter_complete. rewrite forallb_forall in Hsafe.
      apply Forall_forall. intros x Hx%list_elem_of_In.
      by apply callback_completes, Hsafe.
    - by eexists. }
  by rewrite Hv, (code_step_sound _ _ _ _ Hv).
Qed.

Lemma spec_step_safe k st view :
  forallb filter_safe view = true ->
  forallb filter_safe (spec_step k st view) = true.
Proof.
  intros Hsafe. unfold spec_step. destruct (is_empty (criterion k st)).
  - exact Hsafe.
  - by apply forallb_filter.
Qed.

Lemma spec_step_passes_one k st view :
  spec_step k st view = List.filter (spec_passes_one k st) view.
Proof.
  unfold spec_step, spec_passes_one.
  destruct (is_empty (criterion k st)); simpl.
  - by rewrite filter_all.
  - reflexivity.
Qed.

(** The four filters in sequence keep the records that pass all of them. *)
Lemma spec_filtered_passes st :
  spec_filtered st = List.filter (spec_passes st) (resumes st).
Proof.
  unfold spec_filtered. rewrite !spec_step_passes_one, !filter_andb.
  apply filter_ext_eq. intros x. unfold spec_passes.
  by rewrite !andb_assoc.
Qed.

(** Partial correctness on arbitrary records: a run that completes yields
    the worded view. *)
Lemma computeFiltered_sound st view :
  computeFiltered st = Normal view -> view = spec_filtered st.
Proof.
  rewrite computeFiltered_steps. unfold spec_filtered.
  destruct (code_step SearchTerm st _) as [v1|] eqn:H1; simpl; [|done].
  destruct (code_step SkillFilter st _) as [v2|] eqn:H2; simpl; [|done].
  destruct (code_step LocationFilter st _) as [v3|] eqn:H3; simpl; [|done].
  destruct (code_step ExperienceFilter st _) as [v4|] eqn:H4; simpl; [|done].
  intros [= <-].
  apply code_step_sound in H1, H2, H3, H4. by subst.
Qed.

(** Total correctness on records of the safe shape. *)
Lemma computeFiltered_safe st :
  forallb filter_safe (resumes st) = true ->
  computeFiltered st = Normal (spec_filtered st).
Proof.
  intros H0. rewrite computeFiltered_steps. unfold spec_filtered.
  pose proof (spec_step_safe SearchTerm st _ H0) as H1.
  pose proof (spec_step_safe SkillFilter st _ H1) as H2.
  pose proof (spec_step_safe LocationFilter st _ H2) as H3.
  rewrite (code_step_safe SearchTerm st _ H0). simpl.
  rewrite (code_step_safe SkillFilter st _ H1). simpl.
  rewrite (code_step_safe LocationFilter st _ H2). simpl.
  rewrite (code_step_safe ExperienceFilter st _ H3). reflexivity.
Qed.

Lemma computeFiltered_sublist st view :
  computeFiltered st = Normal view -> view `sublist_of` resumes st.
Proof.
  rewrite computeFiltered_steps.
  destruct (code_step SearchTerm st _) as [v1|] eqn:H1; simpl; [|done].
  destruct (code_step SkillFilter st _) as [v2|] eqn:H2; simpl; [|done].
  destruct (code_step LocationFilter st _) as [v3|] eqn:H3; simpl; [|done].
  destruct (code_step ExperienceFilter st _) as [v4|] eqn:H4; simpl; [|done].
  intros [= <-].
  apply code_step_sublist in H1, H2, H3, H4.
  by repeat (etrans; [eassumption|]).
Qed.

Lemma computeFiltered_empty_criteria st :
  searchTerm st = "" -> skillFilter st = "" ->
  locationFilter st = "" -> experienceFilter st = "" ->
  computeFiltered st = Normal (resumes st).
Proof.
  intros Hs Hk Hl He. unfold computeFiltered. by rewrite Hs, Hk, Hl, He.
Qed.

Lemma conforms_filter_safe resume :
  conforms resume = true -> filter_safe resume = true.
Proof.
  destruct resume as [r|]; simpl; [|done].
  rewrite !andb_true_iff. intros [[[[[[Hp _] He] _] Hs] _] _].
  repeat split.
  - by destruct (personalInfo r).
  - exact Hs.
  - destruct (experience r) as [l|]; simpl in *; [|done].
    induction l as [|[e|] l IH]; simpl in *; try done.
    apply andb_true_iff in He as [He Hl]. rewrite (IH Hl), andb_true_r.
    rewrite !andb_true_iff in He. rewrite andb_true_iff. tauto.
Qed.

(** C1. For every collection of records (of the safe shape, which every
    record conforming to the data model has), the recomputation completes
    and yields the full collection filtered by the four criteria in the
    order search term, skill, location, experience, each applied only when
    its string is non-empty, with case-insensitive substring matching:
    name OR email OR any skill for the search term, any skill for the skill
    filter, the location for the location filter, some entry's title OR
    company for the experience filter.  That view consists of exactly the
    records passing every active criterion, and it is what the effect
    stores. *)
Theorem filter_applies_active_criteria st :
  forallb filter_safe (resumes st) = true ->
  computeFiltered st = Normal (spec_filtered st)
  /\ spec_filtered st = List.filter (spec_passes st) (resumes st)
  /\ filterEffect st = Normal (setFilteredResumes (spec_filtered st) st).
Proof.
  intros Hsafe. split; [|split].
  - by apply computeFiltered_safe.
  - apply spec_filtered_passes.
  - unfold filterEffect. by rewrite computeFiltered_safe.
Qed.

End FilterEngine.

(** ** Properties of the filtered view *)

Section FilteredView.
Context {L : CaseMapping}.

Lemma elem_of_spec_filtered st resume :
  resume ∈ spec_filtered st ->
  resume ∈ resumes st /\ spec_passes st resume = true.
Proof.
  rewrite spec_filtered_passes, !list_elem_of_In. apply filter_In.
Qed.

Lemma spec_passes_one_active k st resume :
  criterion k st <> "" ->
  spec_passes_one k st resume = true ->
  spec_matches k (criterion k st) resume = true.
Proof.
  intros Hne. unfold spec_passes_one.
  destruct (is_empty (criterion k st)) eqn:He; [|done].
  by apply is_empty_true in He.
Qed.

(** C2, as amended.  In a collection whose records have their
    [personalInfo], their [skills] and their [experience] entries with
    [title] and [company], a record may lack [name], [email] or [location]:
    the recomputation completes, an absent location never passes an active
    location filter, and a record without name (without email) passes an
    active search term only through its email (its name) or a skill. *)
Theorem absent_personal_text_is_non_matching st :
  forallb filter_safe (resumes st) = true ->
  exists view,
    computeFiltered st = Normal view
    /\ (forall resume, resume ∈ view -> locationFilter st <> "" ->
        spec_personal location resume <> None)
    /\ (forall resume, resume ∈ view -> searchTerm st <> "" ->
        spec_personal name resume = None ->
        spec_contains (spec_personal email resume) (searchTerm st)
        || spec_any_skill (searchTerm st) resume = true)
    /\ (forall resume, resume ∈ view -> searchTerm st <> "" ->
        spec_personal email resume = None ->
        spec_contains (spec_personal name resume) (searchTerm st)
        || spec_any_skill (searchTerm st) resume = true).
Proof.
  intros Hsafe. exists (spec_filtered st).
  split; [by apply computeFiltered_safe|].
  repeat split; intros resume [_ Hpass]%elem_of_spec_filtered Hne.
  - unfold spec_passes in Hpass. rewrite !andb_true_iff in Hpass.
    destruct Hpass as [[[_ _] Hloc] _].
    apply (spec_passes_one_active LocationFilter) in Hloc; [|exact Hne].
    simpl in Hloc. intros Habs. by rewrite Habs in Hloc.
  - unfold spec_passes in Hpass. rewrite !andb_true_iff in Hpass.
    destruct Hpass as [[[Hsearch _] _] _].
    apply (spec_passes_one_active SearchTerm) in Hsearch; [|exact Hne].
    simpl in Hsearch. intros Habs. by rewrite Habs in Hsearch.
  - unfold spec_passes in Hpass. rewrite !andb_true_iff in Hpass.
    destruct Hpass as [[[Hsearch _] _] _].
    apply (spec_passes_one_active SearchTerm) in Hsearch; [|exact Hne].
    simpl in Hsearch. intros Habs. rewrite Habs in Hsearch. simpl in Hsearch.
    by rewrite orb_false_r in Hsearch.
Qed.

(** C3. For every collection and every combination of the four criterion
    strings, the view the recomputation yields is a subsequence of the
    collection: same relative order, and every record of the view occurs in
    the collection.  The effect stores such a view and leaves the collection
    as it is; on records of the safe shape a view is always produced. *)
Theorem filtered_view_is_subsequence st :
  (forall view, computeFiltered st = Normal view ->
     view `sublist_of` resumes st
     /\ forall resume, resume ∈ view -> resume ∈ resumes st)
  /\ (forall st', filterEffect st = Normal st' ->
        filteredResumes st' `sublist_of` resumes st'
        /\ resumes st' = resumes st)
  /\ (forallb filter_safe (resumes st) = true ->
      exists view, computeFiltered st = Normal view).
Proof.
  split; [|split].
  - intros view Hview%computeFiltered_sublist. split; [exact Hview|].
    intros resume Hin. by eapply elem_of_sublist.
  - intros st'. unfold filterEffect.
    destruct (computeFiltered st) as [view|] eqn:Hview; simpl; [|done].
    intros [= <-]. simpl. split; [|done]. by apply computeFiltered_sublist.
  - intros Hsafe. eexists. by apply computeFiltered_safe.
Qed.

(** C4. When the search term and the skill, location and experience filters
    are all empty, the filtered view equals the collection, whatever the
    records are. *)
Theorem empty_criteria_give_whole_collection st :
  searchTerm st = "" -> skillFilter st = "" ->
  locationFilter st = "" -> experienceFilter st = "" ->
  computeFiltered st = Normal (resumes st)
  /\ filterEffect st = Normal (setFilteredResumes (resumes st) st).
Proof.
  intros Hs Hk Hl He.
  pose proof (computeFiltered_empty_criteria st Hs Hk Hl He) as Hview.
  split; [exact Hview|]. unfold filterEffect. by rewrite Hview.
Qed.

Lemma spec_passes_add_criterion k q st resume :
  criterion k st = "" ->
  spec_passes (setCriterion k q st) resume
  = spec_passes st resume && (is_empty q || spec_matches k q resume).
Proof.
  intros Hk. unfold spec_passes, spec_passes_one.
  destruct k; simpl in *; rewrite Hk; simpl;
    repeat match goal with
           | |- context [is_empty ?s || ?b] =>
               destruct (is_empty s || b); simpl
           end; try reflexivity.
Qed.

Lemma spec_filtered_add_criterion k q st :
  criterion k st = "" ->
  spec_filtered (setCriterion k q st)
  = List.filter (fun resume => is_empty q || spec_matches k q resume)
      (spec_filtered st).
Proof.
  intros Hk. rewrite !spec_filtered_passes, filter_andb.
  replace (resumes (setCriterion k q st)) with (resumes st)
    by (by destruct k).
  apply filter_ext_eq. intros resume. by apply spec_passes_add_criterion.
Qed.

(** Whenever both recomputations complete, adding a criterion keeps a
    sub-view, on arbitrary records. *)
Lemma add_criterion_shrinks k q st view view' :
  criterion k st = "" ->
  computeFiltered st = Normal view ->
  computeFiltered (setCriterion k q st) = Normal view' ->
  view' = List.filter (fun resume => is_empty q || spec_matches k q resume)
            view.
Proof.
  intros Hk Hv%computeFiltered_sound Hv'%computeFiltered_sound. subst.
  by apply spec_filtered_add_criterion.
Qed.

(** C5. Take a configuration in which criterion [k] is empty and make it
    non-empty with a value [q] that matches no record of the current
    filtered view.  Both views are produced, and the view under the extended
    criteria has at most as many records as the current one (it is in fact
    empty). *)
Theorem adding_non_matching_criterion_never_grows k q st :
  forallb filter_safe (resumes st) = true ->
  criterion k st = "" ->
  q <> "" ->
  (forall view, computeFiltered st = Normal view ->
     Forall (fun resume => spec_matches k q resume = false) view) ->
  exists view view',
    computeFiltered st = Normal view
    /\ computeFiltered (setCriterion k q st) = Normal view'
    /\ length view' <= length view
    /\ view' = [].
Proof.
  intros Hsafe Hk Hq Hnone.
  pose proof (computeFiltered_safe st Hsafe) as Hv.
  assert (Hsafe' : forallb filter_safe (resumes (setCriterion k q st)) = true)
    by (by destruct k).
  pose proof (computeFiltered_safe _ Hsafe') as Hv'.
  exists (spec_filtered st), (spec_filtered (setCriterion k q st)).
  split; [exact Hv|]. split; [exact Hv'|].
  rewrite (spec_filtered_add_criterion k q st Hk). split.
  - apply filter_length_le.
  - apply filter_none. eapply Forall_impl; [exact (Hnone _ Hv)|].
    intros resume Hm. simpl in Hm. rewrite Hm.
    destruct (is_empty q) eqn:He; [|done]. by apply is_empty_true in He.
Qed.

End FilteredView.

(** ** Filter-mode controller and clear-filters *)

(** C6. Switching the filter mode to "all" empties the skill, location and
    experience criteria and leaves the search term as it was; switching to
    any other mode leaves all four criterion strings as they were.  In both
    cases the mode becomes the chosen value and the collections are
    untouched. *)
Theorem mode_all_resets_three_criteria value st :
  let st' := handleFilterTypeChange value st in
  filterType st' = value
  /\ searchTerm st' = searchTerm st
  /\ resumes st' = resumes st
  /\ filteredResumes st' = filteredResumes st
  /\ (value = "all" ->
      skillFilter st' = "" /\ locationFilter st' = ""
      /\ experienceFilter st' = "")
  /\ (value <> "all" ->
      skillFilter st' = skillFilter st
      /\ locationFilter st' = locationFilter st
      /\ experienceFilter st' = experienceFilter st).
Proof.
  unfold handleFilterTypeChange.
  destruct (String.eqb_spec value "all") as [->|Hne]; simpl.
  - repeat split; intros; done.
  - repeat split; intros; done.
Qed.

Section ClearFilters.
Context {L : CaseMapping}.

Lemma deps_unchanged_clearFilters st :
  deps_changed st (clearFilters st) = false ->
  searchTerm st = "" /\ skillFilter st = ""
  /\ locationFilter st = "" /\ experienceFilter st = "".
Proof.
  unfold deps_changed. simpl. rewrite !orb_false_iff, !negb_false_iff.
  intros [[[Hs Hk] Hl] He].
  by apply String.eqb_eq in Hs, Hk, Hl, He.
Qed.

(** The recomputation reads the collection and the four criterion strings,
    nothing else. *)
Lemma computeFiltered_ext st1 st2 :
  resumes st1 = resumes st2 ->
  searchTerm st1 = searchTerm st2 ->
  skillFilter st1 = skillFilter st2 ->
  locationFilter st1 = locationFilter st2 ->
  experienceFilter st1 = experienceFilter st2 ->
  computeFiltered st1 = computeFiltered st2.
Proof.
  intros Hr Hs Hk Hl He. unfold computeFiltered.
  by rewrite Hr, Hs, Hk, Hl, He.
Qed.

Lemma settled_initialState : settled initialState.
Proof. reflexivity. Qed.

(** Once the effect has run, the state is settled. *)
Lemma filterEffect_settles st st' :
  filterEffect st = Normal st' -> settled st'.
Proof.
  unfold filterEffect, settled.
  destruct (computeFiltered st) as [view|] eqn:Hview; simpl; [|done].
  intros [= <-]. simpl. rewrite <- Hview. by apply computeFiltered_ext.
Qed.

(** A handler that leaves both collections alone keeps the page settled
    across the re-render. *)
Lemma commit_settled handler st st' :
  (forall s, resumes (handler s) = resumes s
             /\ filteredResumes (handler s) = filteredResumes s) ->
  settled st -> commit handler st = Normal st' -> settled st'.
Proof.
  intros Hframe Hsettled. unfold commit.
  destruct (deps_changed st (handler st)) eqn:Hdeps.
  - apply filterEffect_settles.
  - intros [= <-]. unfold settled in *.
    destruct (Hframe st) as [Hr Hf]. rewrite Hf, <- Hsettled.
    unfold deps_changed in Hdeps.
    rewrite !orb_false_iff, !negb_false_iff in Hdeps.
    destruct Hdeps as [[[Hs Hk] Hl] He].
    apply String.eqb_eq in Hs, Hk, Hl, He.
    by apply computeFiltered_ext.
Qed.

(** C10. The clear-filters action empties the search term and the skill,
    location and experience criteria and sets the filter mode to "all"; the
    recomputation on the resulting state yields the full collection, and
    once the page has re-rendered from a settled state the stored filtered
    view equals the collection. *)
Theorem clearFilters_shows_whole_collection st :
  let st' := clearFilters st in
  searchTerm st' = "" /\ skillFilter st' = ""
  /\ locationFilter st' = "" /\ experienceFilter st' = ""
  /\ filterType st' = "all"
  /\ resumes st' = resumes st
  /\ computeFiltered st' = Normal (resumes st)
  /\ (settled st ->
      exists st'', commit clearFilters st = Normal st''
                   /\ filteredResumes st'' = resumes st
                   /\ resumes st'' = resumes st
                   /\ criterion SearchTerm st'' = ""
                   /\ criterion SkillFilter st'' = ""
                   /\ criterion LocationFilter st'' = ""
                   /\ criterion ExperienceFilter st'' = "").
Proof.
  simpl. repeat (split; [reflexivity|]).
  intros Hsettled. unfold commit.
  destruct (deps_changed st (clearFilters st)) eqn:Hdeps.
  - eexists. split; [reflexivity|]. simpl. done.
  - apply deps_unchanged_clearFilters in Hdeps as (Hs & Hk & Hl & He).
    eexists. split; [reflexivity|]. simpl. repeat split.
    unfold settled in Hsettled.
    rewrite (computeFiltered_empty_criteria st Hs Hk Hl He) in Hsettled.
    by injection Hsettled.
Qed.

End ClearFilters.

(** ** Export and loading *)

Lemma Number_toString_reads_back n :
  option_map Nat.of_uint (NilEmpty.uint_of_string (Number_toString n))
  = Some n.
Proof.
  unfold Number_toString. rewrite NilEmpty.usu. simpl.
  by rewrite DecimalNat.Unsigned.of_to.
Qed.

Section Collaborators.
Context {X : ExcelLib}.

(** C7. With an empty filtered view, export shows exactly one notice, the
    "No Data" one, and the spreadsheet writer is not called. *)
Theorem export_of_empty_view_only_notifies st :
  filteredResumes st = [] ->
  handleExport st =
    [toast {| Toast.title := "No Data";
              Toast.description := "There is no data to export.";
              Toast.variant := Some "destructive" |}]
  /\ List.filter is_exportToExcel (handleExport st) = []
  /\ length (List.filter is_toast (handleExport st)) = 1.
Proof. intros Hempty. unfold handleExport. by rewrite Hempty. Qed.

(** C8. With a non-empty filtered view, export first hands the rows
    prepared from exactly the filtered view to the spreadsheet writer, under
    the file name "all-resumes" followed by ".xlsx" and the sheet label
    "Resumes", and then shows a success notice whose count is the number of
    records of the filtered view, in decimal. *)
Theorem export_of_view_writes_then_reports st :
  filteredResumes st <> [] ->
  handleExport st =
    [exportToExcel (prepareResumeDataForExcel (filteredResumes st))
       {| filename := "all-resumes" +:+ ".xlsx"; sheetName := "Resumes" |};
     toast {| Toast.title := "Success";
              Toast.description :=
                "Successfully exported "
                +:+ Number_toString (length (filteredResumes st))
                +:+ " resumes to Excel.";
              Toast.variant := None |}]
  /\ option_map Nat.of_uint
       (NilEmpty.uint_of_string
          (Number_toString (length (filteredResumes st))))
     = Some (length (filteredResumes st)).
Proof.
  intros Hne. split; [|apply Number_toString_reads_back].
  unfold handleExport. destruct (filteredResumes st); [done|reflexivity].
Qed.

Context {L : CaseMapping}.

Lemma fetch_fails_or_succeeds net :
  (exists e, fetch_fails net e) \/ (exists data, fetch_succeeds net data).
Proof.
  destruct (net "/api/resumes") as [response|e] eqn:Hnet.
  - destruct (ok response) eqn:Hok.
    + destruct (json response) as [data|e] eqn:Hjson.
      * right. exists data. by econstructor.
      * left. exists e. by eapply fetch_json_rejected.
    + left. eexists. by eapply fetch_not_ok.
  - left. exists e. by apply fetch_rejected.
Qed.

(** A failed request leaves any state as it is. *)
Lemma fetchResumes_failure net e st :
  fetch_fails net e ->
  fetchResumes net st =
    (st, [fetch "/api/resumes"; console_error "Error fetching resumes:" e]).
Proof.
  unfold fetchResumes.
  destruct 1 as [e Hnet|response Hnet Hok|response e Hnet Hok Hjson];
    rewrite Hnet; simpl; [done|by rewrite Hok|by rewrite Hok, Hjson].
Qed.

Lemma fetchResumes_success net data st :
  fetch_succeeds net data ->
  fetchResumes net st =
    (setFilteredResumes data (setResumes data st), [fetch "/api/resumes"]).
Proof.
  unfold fetchResumes. destruct 1 as [response data Hnet Hok Hjson].
  rewrite Hnet. simpl. by rewrite Hok, Hjson.
Qed.

(** C9. One request is issued on load.  When it fails (the request is
    rejected, the response is not ok, or its body does not parse) the error
    is logged with [console.error], the collection and the filtered view stay
    empty and no toast is shown.  When it succeeds both the collection and
    the filtered view hold the fetched data, and the filter effect that
    follows keeps them so. *)
Theorem fetchResumes_outcome net :
  (forall e, fetch_fails net e ->
     exists st' events,
       fetchResumes net initialState = (st', events)
       /\ resumes st' = [] /\ filteredResumes st' = []
       /\ events = [fetch "/api/resumes";
                    console_error "Error fetching resumes:" e]
       /\ List.filter is_toast events = [])
  /\ (forall data, fetch_succeeds net data ->
        exists st' events,
          fetchResumes net initialState = (st', events)
          /\ resumes st' = data /\ filteredResumes st' = data
          /\ events = [fetch "/api/resumes"]
          /\ filterEffect st' = Normal st').
Proof.
  split.
  - intros e Hfail. do 2 eexists.
    split; [by apply fetchResumes_failure|]. done.
  - intros data Hok. do 2 eexists.
    split; [by apply fetchResumes_success|]. done.
Qed.

End Collaborators.

(** ** The model at work *)

(** The example of the specification: searching "ann" keeps Ann Lee, the
    skill filter "sql" keeps her too, the skill filter "java" keeps nobody. *)
Example ann_lee_found_by_search :
  computeFiltered (L:=ascii_case) (setSearchTerm "ann" (withResumes [annLee]))
  = Normal [annLee].
Proof. reflexivity. Qed.

Example ann_lee_kept_by_sql :
  computeFiltered (L:=ascii_case) (setSkillFilter "sql" (withResumes [annLee]))
  = Normal [annLee].
Proof. reflexivity. Qed.

Example ann_lee_dropped_by_java :
  computeFiltered (L:=ascii_case) (setSkillFilter "java" (withResumes [annLee]))
  = Normal [].
Proof. reflexivity. Qed.

(** The search callback reads [personalInfo] through an optional chain, the
    location callback does not; neither guards [skills]. *)
Example absent_personalInfo_tolerated_by_search :
  computeFiltered (L:=ascii_case)
    (setSearchTerm "go" (withResumes [noPersonalInfo]))
  = Normal [noPersonalInfo].
Proof. reflexivity. Qed.

Example absent_personalInfo_throws_in_location_filter :
  computeFiltered (L:=ascii_case)
    (setLocationFilter "erie" (withResumes [noPersonalInfo]))
  = Throw TypeError.
Proof. reflexivity. Qed.

Example absent_skills_throws_in_skill_filter :
  computeFiltered (L:=ascii_case)
    (setSkillFilter "go" (withResumes [noSkills]))
  = Throw TypeError.
Proof. reflexivity. Qed.

Example absent_skills_reached_by_search_throws :
  computeFiltered (L:=ascii_case)
    (setSearchTerm "go" (withResumes [noSkills]))
  = Throw TypeError.
Proof. reflexivity. Qed.

Example absent_skills_not_reached_by_search :
  computeFiltered (L:=ascii_case)
    (setSearchTerm "fox" (withResumes [noSkills]))
  = Normal [noSkills].
Proof. reflexivity. Qed.

Lemma filter_applies_active_criteria_witness :
  forallb filter_safe (resumes st_ann_sql) = true
  /\ (computeFiltered (L:=ascii_case) st_ann_sql
      = Normal (spec_filtered (L:=ascii_case) st_ann_sql)
      /\ spec_filtered (L:=ascii_case) st_ann_sql
         = List.filter (spec_passes (L:=ascii_case) st_ann_sql)
             (resumes st_ann_sql)
      /\ filterEffect (L:=ascii_case) st_ann_sql
         = Normal (setFilteredResumes
                     (spec_filtered (L:=ascii_case) st_ann_sql) st_ann_sql)).
Proof.
  split; [reflexivity|].
  apply (filter_applies_active_criteria (L:=ascii_case) st_ann_sql).
  reflexivity.
Defined.

(** C2, as stated, fails: an experience entry without [title] makes the
    experience filter raise a [TypeError]; no view is produced. *)
Lemma absent_title_throws :
  computeFiltered (L:=ascii_case) st_no_title = Throw TypeError
  /\ filterEffect (L:=ascii_case) st_no_title = Throw TypeError
  /\ ~ (exists view, computeFiltered (L:=ascii_case) st_no_title
                     = Normal view).
Proof.
  split; [reflexivity|]. split; [reflexivity|].
  intros [view Hview]. discriminate Hview.
Qed.

Lemma absent_personal_text_is_non_matching_witness :
  forallb filter_safe (resumes st_no_location) = true
  /\ exists view,
       computeFiltered (L:=ascii_case) st_no_location = Normal view
       /\ (forall resume, resume ∈ view ->
           locationFilter st_no_location <> "" ->
           spec_personal location resume <> None)
       /\ (forall resume, resume ∈ view ->
           searchTerm st_no_location <> "" ->
           spec_personal name resume = None ->
           spec_contains (L:=ascii_case) (spec_personal email resume)
             (searchTerm st_no_location)
           || spec_any_skill (L:=ascii_case) (searchTerm st_no_location)
                resume = true)
       /\ (forall resume, resume ∈ view ->
           searchTerm st_no_location <> "" ->
           spec_personal email resume = None ->
           spec_contains (L:=ascii_case) (spec_personal name resume)
             (searchTerm st_no_location)
           || spec_any_skill (L:=ascii_case) (searchTerm st_no_location)
                resume = true).
Proof.
  split; [reflexivity|].
  apply (absent_personal_text_is_non_matching (L:=ascii_case) st_no_location).
  reflexivity.
Defined.

(** The record without location is dropped by the location filter there. *)
Example absent_location_is_dropped :
  computeFiltered (L:=ascii_case) st_no_location = Normal [annLee].
Proof. reflexivity. Qed.

Lemma filtered_view_is_subsequence_witness :
  forallb filter_safe (resumes st_ann_sql) = true
  /\ computeFiltered (L:=ascii_case) st_ann_sql = Normal [annLee]
  /\ [annLee] `sublist_of` resumes st_ann_sql
  /\ exists view, computeFiltered (L:=ascii_case) st_ann_sql = Normal view.
Proof.
  destruct (filtered_view_is_subsequence (L:=ascii_case) st_ann_sql)
    as (Hsub & _ & Htotal).
  split; [reflexivity|]. split; [reflexivity|]. split.
  - apply (Hsub [annLee]). reflexivity.
  - apply Htotal. reflexivity.
Defined.

Lemma empty_criteria_give_whole_collection_witness :
  computeFiltered (L:=ascii_case) st_malformed_unfiltered
  = Normal (resumes st_malformed_unfiltered)
  /\ filterEffect (L:=ascii_case) st_malformed_unfiltered
     = Normal (setFilteredResumes (resumes st_malformed_unfiltered)
                 st_malformed_unfiltered).
Proof.
  apply (empty_criteria_give_whole_collection (L:=ascii_case)
           st_malformed_unfiltered); reflexivity.
Defined.

Lemma adding_non_matching_criterion_never_grows_witness :
  exists view view',
    computeFiltered (L:=ascii_case) st_search_a = Normal view
    /\ computeFiltered (L:=ascii_case)
         (setCriterion SkillFilter "rust" st_search_a) = Normal view'
    /\ length view' <= length view
    /\ view' = [].
Proof.
  apply (adding_non_matching_criterion_never_grows (L:=ascii_case)
           SkillFilter "rust" st_search_a).
  - reflexivity.
  - reflexivity.
  - discriminate.
  - intros view Hview. injection Hview as <-.
    repeat constructor.
Defined.

Lemma mode_all_resets_three_criteria_witness :
  (skillFilter (handleFilterTypeChange "all" st_ann_sql) = ""
   /\ locationFilter (handleFilterTypeChange "all" st_ann_sql) = ""
   /\ experienceFilter (handleFilterTypeChange "all" st_ann_sql) = "")
  /\ searchTerm (handleFilterTypeChange "all" st_ann_sql) = "ann"
  /\ (skillFilter (handleFilterTypeChange "location" st_ann_sql) = "sql"
      /\ locationFilter (handleFilterTypeChange "location" st_ann_sql) = ""
      /\ experienceFilter (handleFilterTypeChange "location" st_ann_sql) = "").
Proof.
  destruct (mode_all_resets_three_criteria "all" st_ann_sql)
    as (_ & Hsearch & _ & _ & Hall & _).
  destruct (mode_all_resets_three_criteria "location" st_ann_sql)
    as (_ & _ & _ & _ & _ & Hother).
  split; [apply Hall; reflexivity|].
  split; [exact Hsearch|].
  apply Hother. discriminate.
Defined.

Lemma clearFilters_shows_whole_collection_witness :
  settled (L:=ascii_case) st_ann_sql_settled
  /\ exists st'',
       commit (L:=ascii_case) clearFilters st_ann_sql_settled = Normal st''
       /\ filteredResumes st'' = resumes st_ann_sql_settled
       /\ resumes st'' = resumes st_ann_sql_settled
       /\ criterion SearchTerm st'' = ""
       /\ criterion SkillFilter st'' = ""
       /\ criterion LocationFilter st'' = ""
       /\ criterion ExperienceFilter st'' = "".
Proof.
  split; [reflexivity|].
  destruct (clearFilters_shows_whole_collection (L:=ascii_case)
              st_ann_sql_settled) as (_ & _ & _ & _ & _ & _ & _ & Hcommit).
  apply Hcommit. reflexivity.
Defined.

Lemma export_of_empty_view_only_notifies_witness :
  filteredResumes initialState = []
  /\ handleExport (X:=name_rows) initialState =
       [toast {| Toast.title := "No Data";
                 Toast.description := "There is no data to export.";
                 Toast.variant := Some "destructive" |}]
  /\ List.filter is_exportToExcel (handleExport (X:=name_rows) initialState)
     = []
  /\ length (List.filter is_toast (handleExport (X:=name_rows) initialState))
     = 1.
Proof.
  split; [reflexivity|].
  apply (export_of_empty_view_only_notifies (X:=name_rows) initialState).
  reflexivity.
Defined.

Lemma export_of_view_writes_then_reports_witness :
  filteredResumes st_two_visible <> []
  /\ handleExport (X:=name_rows) st_two_visible =
       [exportToExcel (X:=name_rows) ["Ann Lee"; "Bob Ray"]
          {| filename := "all-resumes.xlsx"; sheetName := "Resumes" |};
        toast {| Toast.title := "Success";
                 Toast.description :=
                   "Successfully exported 2 resumes to Excel.";
                 Toast.variant := None |}].
Proof.
  split; [discriminate|].
  destruct (export_of_view_writes_then_reports (X:=name_rows) st_two_visible)
    as [Hexport _]; [discriminate|]. exact Hexport.
Defined.

Lemma fetchResumes_outcome_witness :
  fetch_fails net_down TypeError
  /\ fetch_succeeds (net_serving [annLee]) [annLee]
  /\ (exists st' events,
        fetchResumes (X:=name_rows) net_down initialState = (st', events)
        /\ resumes st' = [] /\ filteredResumes st' = []
        /\ events = [fetch "/api/resumes";
                     console_error "Error fetching resumes:" TypeError]
        /\ List.filter is_toast events = [])
  /\ (exists st' events,
        fetchResumes (X:=name_rows) (net_serving [annLee]) initialState
        = (st', events)
        /\ resumes st' = [annLee] /\ filteredResumes st' = [annLee]
        /\ events = [fetch "/api/resumes"]
        /\ filterEffect (L:=ascii_case) st' = Normal st').
Proof.
  assert (Hdown : fetch_fails net_down TypeError)
    by (apply fetch_rejected; reflexivity).
  assert (Hup : fetch_succeeds (net_serving [annLee]) [annLee])
    by (eapply fetch_ok; reflexivity).
  split; [exact Hdown|]. split; [exact Hup|]. split.
  - apply (fetchResumes_outcome (X:=name_rows) (L:=ascii_case) net_down).
    exact Hdown.
  - apply (fetchResumes_outcome (X:=name_rows) (L:=ascii_case)
             (net_serving [annLee])).
    exact Hup.
Defined.

(** * Further properties of the page *)

(** ** More on [filter], [some] and [map] *)

Section MoreArrayLemmas.
Context {A : Type}.
Implicit Types (cb : A -> completion (nullable bool)) (l kept : list A).

Lemma Array_filter_kept_accepted cb l kept :
  Array_filter cb l = Normal kept -> Forall (accepts cb) kept.
Proof.
  revert kept. induction l as [|x l IH]; intros kept; simpl.
  - intros [= <-]. constructor.
  - destruct (cb x) as [v|] eqn:Hx; [|discriminate].
    destruct (Array_filter cb l) as [kept'|]; [|discriminate].
    intros [= <-]. specialize (IH kept' eq_refl).
    destruct (truthy v) eqn:Hv; [|exact IH].
    constructor; [by exists v|exact IH].
Qed.

Lemma Array_filter_all_accepted cb l :
  Forall (accepts cb) l -> Array_filter cb l = Normal l.
Proof.
  induction 1 as [|x l (v & Hx & Hv) _ IH]; simpl; [done|].
  by rewrite Hx, IH, Hv.
Qed.

Lemma Array_filter_app cb l1 l2 :
  Array_filter cb (l1 ++ l2) =
  let* k1 := Array_filter cb l1 in
  let* k2 := Array_filter cb l2 in
  Normal (k1 ++ k2).
Proof.
  induction l1 as [|x l1 IH]; simpl.
  - by destruct (Array_filter cb l2).
  - destruct (cb x) as [v|]; [|done]. rewrite IH.
    destruct (Array_filter cb l1) as [k1|]; simpl; [|done].
    destruct (Array_filter cb l2) as [k2|]; simpl; [|done].
    by destruct (truthy v).
Qed.

Lemma Array_filter_throws_TypeError cb l x :
  (forall y e, cb y = Throw e -> e = TypeError) ->
  x ∈ l -> cb x = Throw TypeError ->
  Array_filter cb l = Throw TypeError.
Proof.
  intros Honly Hin Hx. induction Hin as [x l|x y l Hin IH]; simpl.
  - by rewrite Hx.
  - destruct (cb y) as [v|e] eqn:Hy.
    + by rewrite IH.
    + by rewrite (Honly y e Hy).
Qed.

Lemma Array_filter_only_TypeError cb l e :
  (forall y e', cb y = Throw e' -> e' = TypeError) ->
  Array_filter cb l = Throw e -> e = TypeError.
Proof.
  intros Honly. induction l as [|x l IH]; simpl; [done|].
  destruct (cb x) as [v|e'] eqn:Hx.
  - destruct (Array_filter cb l) as [kept|e'']; [done|].
    intros [= <-]. by apply IH.
  - intros [= <-]. by eapply Honly.
Qed.

Lemma Array_some_only_TypeError cb l e :
  (forall y e', cb y = Throw e' -> e' = TypeError) ->
  Array_some cb l = Throw e -> e = TypeError.
Proof.
  intros Honly. induction l as [|x l IH]; simpl; [done|].
  destruct (cb x) as [v|e'] eqn:Hx.
  - destruct (truthy v); [done|exact IH].
  - intros [= <-]. by eapply Honly.
Qed.

End MoreArrayLemmas.

Lemma list_filter_sublist {A} (p : A -> bool) (l : list A) :
  List.filter p l `sublist_of` l.
Proof.
  induction l as [|x l IH]; simpl; [constructor|].
  destruct (p x); by constructor.
Qed.

Lemma list_filter_app {A} (p : A -> bool) (l1 l2 : list A) :
  List.filter p (l1 ++ l2) = List.filter p l1 ++ List.filter p l2.
Proof.
  induction l1 as [|x l1 IH]; simpl; [done|].
  destruct (p x); simpl; by rewrite IH.
Qed.

Lemma Array_map_length {A B} (cb : A -> completion B) l ys :
  Array_map cb l = Normal ys -> length ys = length l.
Proof.
  revert ys. induction l as [|x l IH]; intros ys; simpl.
  - by intros [= <-].
  - destruct (cb x) as [y|]; simpl; [|done].
    destruct (Array_map cb l) as [ys'|]; simpl; [|done].
    intros [= <-]. simpl. by rewrite (IH ys').
Qed.

Lemma Array_map_completes {A B} (cb : A -> completion B) l :
  (exists ys, Array_map cb l = Normal ys)
  <-> Forall (fun x => exists y, cb x = Normal y) l.
Proof.
  induction l as [|x l IH]; simpl.
  - split; [constructor|by eexists].
  - split.
    + intros [ys Hys]. destruct (cb x) as [y|] eqn:Hx; simpl in Hys; [|done].
      destruct (Array_map cb l) as [ys'|]; simpl in Hys; [|done].
      constructor; [by eexists|]. apply IH. by eexists.
    + intros Hall. apply Forall_cons in Hall as [[y Hx] [ys Hys]%IH].
      rewrite Hx, Hys. by eexists.
Qed.

Lemma Array_map_only_TypeError {A B} (cb : A -> completion B) l e :
  (forall y e', cb y = Throw e' -> e' = TypeError) ->
  Array_map cb l = Throw e -> e = TypeError.
Proof.
  intros Honly. induction l as [|x l IH]; simpl; [done|].
  destruct (cb x) as [y|e'] eqn:Hx; simpl.
  - destruct (Array_map cb l) as [ys|e'']; simpl; [done|].
    intros [= <-]. by apply IH.
  - intros [= <-]. by eapply Honly.
Qed.

Lemma Array_filter_skip {A} (cb : A -> completion (nullable bool))
    (p : A -> bool) (l : list A) :
  (forall x, p x = false -> exists v, cb x = Normal v /\ truthy v = false) ->
  Array_filter cb (List.filter p l) = Array_filter cb l.
Proof.
  intros Hskip. induction l as [|x l IH]; simpl; [done|].
  destruct (p x) eqn:Hp; simpl.
  - by rewrite IH.
  - destruct (Hskip x Hp) as (v & -> & ->). rewrite IH.
    by destruct (Array_filter cb l).
Qed.

(** ** More on the filter engine *)

Section MoreFilterEngine.
Context {L : CaseMapping}.

Lemma computeFiltered_setResumes c st :
  computeFiltered (setResumes c st) =
  let* v1 := code_step SearchTerm st c in
  let* v2 := code_step SkillFilter st v1 in
  let* v3 := code_step LocationFilter st v2 in
  let* v4 := code_step ExperienceFilter st v3 in
  Normal v4.
Proof. reflexivity. Qed.

Lemma lower_includes_only_TypeError term (s : nullable string) e :
  lower_includes s term = Throw e -> e = TypeError.
Proof. destruct s; simpl; [done|]. by intros [= <-]. Qed.

Lemma callback_only_TypeError k q resume e :
  callback k q resume = Throw e -> e = TypeError.
Proof.
  destruct k; simpl.
  - unfold searchCallback, or_else.
    destruct (truthy (chain_personal name _ _)); [done|].
    destruct (truthy (chain_personal email _ _)); [done|].
    unfold chain_skills. destruct resume as [r|]; [|done].
    destruct (skills r) as [l|]; [|by intros [= <-]].
    destruct (Array_some _ l) as [b|e'] eqn:Hsome; simpl; [done|].
    intros [= <-]. eapply Array_some_only_TypeError, Hsome.
    intros y e0. apply lower_includes_only_TypeError.
  - unfold skillCallback. destruct resume as [r|]; simpl; [|by intros [= <-]].
    destruct (skills r) as [l|]; simpl; [|by intros [= <-]].
    destruct (Array_some _ l) as [b|e'] eqn:Hsome; simpl; [done|].
    intros [= <-]. eapply Array_some_only_TypeError, Hsome.
    intros y e0. apply lower_includes_only_TypeError.
  - unfold locationCallback.
    destruct resume as [r|]; simpl; [|by intros [= <-]].
    destruct (personalInfo r) as [p|]; simpl; [done|by intros [= <-]].
  - unfold experienceCallback.
    destruct resume as [r|]; simpl; [|by intros [= <-]].
    destruct (experience r) as [l|]; simpl; [|by intros [= <-]].
    destruct (Array_some _ l) as [b|e'] eqn:Hsome; simpl; [done|].
    intros [= <-]. eapply Array_some_only_TypeError, Hsome.
    intros [x|] e0; simpl; [|by intros [= <-]].
    destruct (title x) as [t|]; simpl; [|by intros [= <-]].
    destruct (String_includes _ _); simpl; [done|].
    destruct (company x) as [c|]; simpl; [done|by intros [= <-]].
Qed.

Lemma code_step_only_TypeError k st l e :
  code_step k st l = Throw e -> e = TypeError.
Proof.
  unfold code_step. destruct (truthy_string (criterion k st)); [|done].
  apply Array_filter_only_TypeError. intros y e'.
  apply callback_only_TypeError.
Qed.

(** X1. The only exception the recomputation can raise is a [TypeError]
    (the one a property read on [undefined] or [null] raises), and the
    effect stores nothing when it is raised. *)
Theorem recomputation_raises_only_TypeError st e :
  computeFiltered st = Throw e ->
  e = TypeError /\ filterEffect st = Throw TypeError.
Proof.
  intros Hthrow.
  assert (e = TypeError) as ->.
  { revert Hthrow. rewrite computeFiltered_steps.
    destruct (code_step SearchTerm st _) as [v1|e1] eqn:H1; simpl;
      [|intros [= <-]; by eapply code_step_only_TypeError].
    destruct (code_step SkillFilter st _) as [v2|e2] eqn:H2; simpl;
      [|intros [= <-]; by eapply code_step_only_TypeError].
    destruct (code_step LocationFilter st _) as [v3|e3] eqn:H3; simpl;
      [|intros [= <-]; by eapply code_step_only_TypeError].
    destruct (code_step ExperienceFilter st _) as [v4|e4] eqn:H4; simpl;
      [done|intros [= <-]; by eapply code_step_only_TypeError]. }
  split; [done|]. unfold filterEffect. by rewrite Hthrow.
Qed.

Lemma code_step_fixed k st l v v' :
  code_step k st l = Normal v ->
  v' `sublist_of` v ->
  code_step k st v' = Normal v'.
Proof.
  unfold code_step. destruct (truthy_string (criterion k st)); [|done].
  intros Hkept%Array_filter_kept_accepted Hsub.
  apply Array_filter_all_accepted.
  rewrite Forall_forall in Hkept. apply Forall_forall.
  intros x Hx. apply Hkept. by eapply elem_of_sublist.
Qed.

(** X2. The view is stable: running the recomputation again on the view it
    produced, under the same criteria, completes and gives that view back,
    whatever the records are. *)
Theorem recomputation_is_stable st view :
  computeFiltered st = Normal view ->
  computeFiltered (setResumes view st) = Normal view.
Proof.
  rewrite computeFiltered_steps, computeFiltered_setResumes.
  destruct (code_step SearchTerm st _) as [v1|] eqn:H1; simpl; [|done].
  destruct (code_step SkillFilter st _) as [v2|] eqn:H2; simpl; [|done].
  destruct (code_step LocationFilter st _) as [v3|] eqn:H3; simpl; [|done].
  destruct (code_step ExperienceFilter st _) as [v4|] eqn:H4; simpl; [|done].
  intros [= <-].
  pose proof (code_step_sublist _ _ _ _ H2) as S2.
  pose proof (code_step_sublist _ _ _ _ H3) as S3.
  pose proof (code_step_sublist _ _ _ _ H4) as S4.
  rewrite (code_step_fixed _ _ _ _ v4 H1) by (by repeat (etrans; [eassumption|])).
  simpl.
  rewrite (code_step_fixed _ _ _ _ v4 H2) by (by etrans).
  simpl.
  rewrite (code_step_fixed _ _ _ _ v4 H3 S4). simpl.
  by rewrite (code_step_fixed _ _ _ _ v4 H4).
Qed.

Lemma callback_lowercase k q q' :
  toLowerCase q = toLowerCase q' -> callback k q = callback k q'.
Proof.
  intros Hq. destruct k; simpl.
  - by rewrite Hq.
  - unfold skillCallback. by rewrite Hq.
  - unfold locationCallback. by rewrite Hq.
  - unfold experienceCallback. by rewrite Hq.
Qed.

Lemma code_step_other_criterion k k' q st l :
  k' <> k -> code_step k' (setCriterion k q st) l = code_step k' st l.
Proof. intros Hne. by destruct k, k'. Qed.

Lemma code_step_same_case k q st l :
  q <> "" -> criterion k st <> "" ->
  toLowerCase q = toLowerCase (criterion k st) ->
  code_step k (setCriterion k q st) l = code_step k st l.
Proof.
  intros Hq Hq0 Hlow. unfold code_step.
  replace (criterion k (setCriterion k q st)) with q by (by destruct k).
  rewrite (callback_lowercase k q (criterion k st) Hlow).
  destruct q; [done|]. by destruct (criterion k st).
Qed.

(** X3. Criteria are compared without regard to case: replacing a
    non-empty criterion by a non-empty string with the same lower-case form
    changes nothing in the outcome of the recomputation (the view, or the
    exception). *)
Theorem criterion_case_is_irrelevant k q st :
  q <> "" -> criterion k st <> "" ->
  toLowerCase q = toLowerCase (criterion k st) ->
  computeFiltered (setCriterion k q st) = computeFiltered st.
Proof.
  intros Hq Hq0 Hlow. rewrite !computeFiltered_steps.
  replace (resumes (setCriterion k q st)) with (resumes st)
    by (by destruct k).
  assert (Hstep : forall k' l,
             code_step k' (setCriterion k q st) l = code_step k' st l).
  { intros k' l.
    assert (k' = k \/ k' <> k) as [->|Hne]
      by (destruct k, k'; (by left) || (by right)).
    - by apply code_step_same_case.
    - by apply code_step_other_criterion. }
  rewrite Hstep.
  destruct (code_step SearchTerm st _) as [v1|]; simpl; [|done].
  rewrite Hstep.
  destruct (code_step SkillFilter st _) as [v2|]; simpl; [|done].
  rewrite Hstep.
  destruct (code_step LocationFilter st _) as [v3|]; simpl; [|done].
  by rewrite Hstep.
Qed.

End MoreFilterEngine.

Section NullAndShape.
Context {L : CaseMapping}.

Lemma code_step_inactive k st l :
  criterion k st = "" -> code_step k st l = Normal l.
Proof. intros Hk. unfold code_step. by rewrite Hk. Qed.

Lemma code_step_null k st l :
  k <> SearchTerm -> criterion k st <> "" -> None ∈ l ->
  code_step k st l = Throw TypeError.
Proof.
  intros Hk Hq Hin. unfold code_step.
  destruct (criterion k st) as [|a q]; [done|]. simpl.
  eapply Array_filter_throws_TypeError; [|exact Hin|].
  - intros y e. apply callback_only_TypeError.
  - by destruct k.
Qed.

(** X4. With a non-empty search term, [null] elements of the collection are
    dropped silently: the recomputation behaves on the collection exactly as
    on the collection without them, and no view contains one. *)
Theorem active_search_term_ignores_null_elements st :
  searchTerm st <> "" ->
  computeFiltered (setResumes (List.filter present (resumes st)) st)
  = computeFiltered st
  /\ forall view, computeFiltered st = Normal view -> None ∉ view.
Proof.
  intros Hq. split.
  - rewrite computeFiltered_setResumes, computeFiltered_steps.
    assert (code_step SearchTerm st (List.filter present (resumes st))
            = code_step SearchTerm st (resumes st)) as ->; [|done].
    unfold code_step. simpl. destruct (searchTerm st) as [|a q]; [done|].
    simpl. apply Array_filter_skip.
    intros [r|]; [done|]. intros _. by exists None.
  - intros view ->%computeFiltered_sound [_ Hpass]%elem_of_spec_filtered.
    unfold spec_passes in Hpass. rewrite !andb_true_iff in Hpass.
    destruct Hpass as [[[Hsearch _] _] _].
    apply (spec_passes_one_active SearchTerm) in Hsearch; done.
Qed.

(** X5. With an empty search term, a [null] element of the collection makes
    the recomputation raise [TypeError] as soon as the skill, location or
    experience filter is non-empty. *)
Theorem null_element_throws_without_search_term st :
  searchTerm st = "" ->
  None ∈ resumes st ->
  skillFilter st <> "" \/ locationFilter st <> ""
  \/ experienceFilter st <> "" ->
  computeFiltered st = Throw TypeError.
Proof.
  intros Hs Hin Hactive. rewrite computeFiltered_steps.
  rewrite (code_step_inactive SearchTerm) by exact Hs. simpl.
  destruct (String.eqb_spec (skillFilter st) "") as [Hk|Hk].
  2:{ by rewrite (code_step_null SkillFilter). }
  rewrite (code_step_inactive SkillFilter) by exact Hk. simpl.
  destruct (String.eqb_spec (locationFilter st) "") as [Hl|Hl].
  2:{ by rewrite (code_step_null LocationFilter). }
  rewrite (code_step_inactive LocationFilter) by exact Hl. simpl.
  destruct (String.eqb_spec (experienceFilter st) "") as [He|He].
  2:{ by rewrite (code_step_null ExperienceFilter). }
  by destruct Hactive as [?|[?|?]].
Qed.

Lemma location_filter_exact q (l : list Resume) :
  Array_filter (locationCallback q) l =
  if forallb has_personalInfo l
  then Normal (List.filter (spec_matches LocationFilter q) l)
  else Throw TypeError.
Proof.
  induction l as [|x l IH]; simpl; [done|].
  destruct x as [r|]; simpl; [|done].
  unfold locationCallback at 1. simpl.
  destruct (personalInfo r) as [p|]; simpl; [|done].
  rewrite IH. destruct (forallb has_personalInfo l); [|done].
  by destruct (location p).
Qed.

(** X6. The location filter on its own: the recomputation raises
    [TypeError] exactly when some record is [null] or has no [personalInfo];
    otherwise it keeps exactly the records whose location contains the
    filter, records without location being dropped. *)
Theorem location_filter_alone st :
  searchTerm st = "" -> skillFilter st = "" -> experienceFilter st = "" ->
  locationFilter st <> "" ->
  computeFiltered st =
  if forallb has_personalInfo (resumes st)
  then Normal (List.filter (spec_matches LocationFilter (locationFilter st))
                 (resumes st))
  else Throw TypeError.
Proof.
  intros Hs Hk He Hl. rewrite computeFiltered_steps.
  rewrite (code_step_inactive SearchTerm) by exact Hs. simpl.
  rewrite (code_step_inactive SkillFilter) by exact Hk. simpl.
  assert (code_step LocationFilter st (resumes st)
          = Array_filter (locationCallback (locationFilter st)) (resumes st))
    as ->.
  { unfold code_step. simpl. by destruct (locationFilter st). }
  rewrite location_filter_exact.
  destruct (forallb has_personalInfo (resumes st)); simpl; [|done].
  by rewrite (code_step_inactive ExperienceFilter).
Qed.

Lemma code_step_app k st l1 l2 :
  code_step k st (l1 ++ l2) =
  let* k1 := code_step k st l1 in
  let* k2 := code_step k st l2 in
  Normal (k1 ++ k2).
Proof.
  unfold code_step. destruct (truthy_string (criterion k st)); [|done].
  apply Array_filter_app.
Qed.

(** X7. Records are judged one by one: the recomputation on a
    concatenation of two collections completes exactly when it completes on
    both, and its view is then the concatenation of the two views. *)
Theorem recomputation_distributes_over_concatenation st c1 c2 view :
  computeFiltered (setResumes (c1 ++ c2) st) = Normal view
  <-> exists v1 v2,
        computeFiltered (setResumes c1 st) = Normal v1
        /\ computeFiltered (setResumes c2 st) = Normal v2
        /\ view = v1 ++ v2.
Proof.
  rewrite !computeFiltered_setResumes.
  rewrite code_step_app.
  destruct (code_step SearchTerm st c1) as [a1|]; simpl;
    [|split; [done|by intros (? & ? & ? & ?)]].
  destruct (code_step SearchTerm st c2) as [a2|]; simpl;
    [|split; [done|by intros (? & ? & ? & ? & ?)]].
  rewrite code_step_app.
  destruct (code_step SkillFilter st a1) as [b1|]; simpl;
    [|split; [done|by intros (? & ? & ? & ?)]].
  destruct (code_step SkillFilter st a2) as [b2|]; simpl;
    [|split; [done|by intros (? & ? & ? & ? & ?)]].
  rewrite code_step_app.
  destruct (code_step LocationFilter st b1) as [d1|]; simpl;
    [|split; [done|by intros (? & ? & ? & ?)]].
  destruct (code_step LocationFilter st b2) as [d2|]; simpl;
    [|split; [done|by intros (? & ? & ? & ? & ?)]].
  rewrite code_step_app.
  destruct (code_step ExperienceFilter st d1) as [e1|]; simpl;
    [|split; [done|by intros (? & ? & ? & ?)]].
  destruct (code_step ExperienceFilter st d2) as [e2|]; simpl;
    [|split; [done|by intros (? & ? & ? & ? & ?)]].
  split.
  - intros [= <-]. by exists e1, e2.
  - by intros (v1 & v2 & [= <-] & [= <-] & ->).
Qed.

(** X8. Making an empty criterion non-empty, with any value, never brings a
    record in: whenever both recomputations complete, the new view is a
    subsequence of the old one (so it is no longer), whatever the records
    are. *)
Theorem adding_a_criterion_gives_a_subsequence k q st view view' :
  criterion k st = "" ->
  computeFiltered st = Normal view ->
  computeFiltered (setCriterion k q st) = Normal view' ->
  view' `sublist_of` view /\ length view' <= length view.
Proof.
  intros Hk Hv Hv'. rewrite (add_criterion_shrinks k q st view view' Hk Hv Hv').
  split; [apply list_filter_sublist|apply filter_length_le].
Qed.

End NullAndShape.

(** ** More on the handlers and the loader *)

Section MoreHandlers.
Context {L : CaseMapping}.

(** X9. Picking a mode other than "all" does not re-run the filter: after
    the re-render the state is the old one with the new mode, so the view
    and all four criteria stay in force, the ones whose input is no longer
    shown included. *)
Theorem switching_to_a_specific_mode_keeps_the_view value st :
  value <> "all" ->
  commit (handleFilterTypeChange value) st = Normal (setFilterType value st).
Proof.
  intros Hne. unfold commit, handleFilterTypeChange.
  destruct (String.eqb_spec value "all") as [->|_]; [done|].
  unfold deps_changed. simpl. by rewrite !String.eqb_refl.
Qed.

Lemma spec_filtered_search_only st :
  skillFilter st = "" -> locationFilter st = "" -> experienceFilter st = "" ->
  spec_filtered st = spec_step SearchTerm st (resumes st).
Proof.
  intros Hk Hl He. unfold spec_filtered.
  unfold spec_step at 1. simpl. rewrite He. simpl.
  unfold spec_step at 1. simpl. rewrite Hl. simpl.
  unfold spec_step at 1. simpl. by rewrite Hk.
Qed.

(** X10. Picking the mode "all" on a settled page with records of the safe
    shape leaves a view filtered by the search term alone. *)
Theorem mode_all_leaves_the_search_results st :
  forallb filter_safe (resumes st) = true ->
  settled st ->
  exists st',
    commit (handleFilterTypeChange "all") st = Normal st'
    /\ filteredResumes st' = spec_step SearchTerm st (resumes st)
    /\ resumes st' = resumes st
    /\ searchTerm st' = searchTerm st
    /\ filterType st' = "all".
Proof.
  intros Hsafe Hsettled. unfold commit.
  destruct (deps_changed st (handleFilterTypeChange "all" st)) eqn:Hdeps.
  - unfold filterEffect.
    rewrite computeFiltered_safe by exact Hsafe.
    eexists. split; [reflexivity|]. simpl.
    by rewrite spec_filtered_search_only.
  - eexists. split; [reflexivity|]. simpl. split; [|done].
    unfold deps_changed in Hdeps. simpl in Hdeps.
    rewrite !orb_false_iff, !negb_false_iff in Hdeps.
    destruct Hdeps as [[[_ Hk] Hl] He].
    apply String.eqb_eq in Hk, Hl, He.
    unfold settled in Hsettled.
    rewrite (computeFiltered_safe st Hsafe) in Hsettled.
    injection Hsettled as <-. by apply spec_filtered_search_only.
Qed.

Context {X : ExcelLib}.

(** X11. Whatever the network does and whatever the state is, loading
    issues exactly one request to [/api/resumes], shows no toast, never
    calls the spreadsheet writer, and leaves the four criteria and the
    filter mode alone.  It either fails and changes nothing at all, or
    succeeds and stores the fetched array as collection and as view. *)
Theorem fetchResumes_frame net st :
  searchTerm (fst (fetchResumes net st)) = searchTerm st
  /\ skillFilter (fst (fetchResumes net st)) = skillFilter st
  /\ locationFilter (fst (fetchResumes net st)) = locationFilter st
  /\ experienceFilter (fst (fetchResumes net st)) = experienceFilter st
  /\ filterType (fst (fetchResumes net st)) = filterType st
  /\ List.filter is_fetch (snd (fetchResumes net st)) = [fetch "/api/resumes"]
  /\ List.filter is_toast (snd (fetchResumes net st)) = []
  /\ List.filter is_exportToExcel (snd (fetchResumes net st)) = []
  /\ ((exists e, fetch_fails net e /\ fst (fetchResumes net st) = st)
      \/ (exists data, fetch_succeeds net data
                       /\ resumes (fst (fetchResumes net st)) = data
                       /\ filteredResumes (fst (fetchResumes net st)) = data)).
Proof.
  destruct (fetch_fails_or_succeeds net) as [[e Hfail]|[data Hok]].
  - rewrite (fetchResumes_failure net e st Hfail). simpl.
    repeat (split; [reflexivity|]). left. by exists e.
  - rewrite (fetchResumes_success net data st Hok). simpl.
    repeat (split; [reflexivity|]). right. by exists data.
Qed.

(** X12. A response that arrives after the user has typed criteria: once
    the filter effect has run on the new collection, the view is the fetched
    data filtered by those criteria, not the raw data [fetchResumes] stored
    (records of the safe shape). *)
Theorem late_response_is_filtered net data st :
  fetch_succeeds net data ->
  forallb filter_safe data = true ->
  exists st',
    filterEffect (fst (fetchResumes net st)) = Normal st'
    /\ resumes st' = data
    /\ filteredResumes st' = spec_filtered (setResumes data st)
    /\ searchTerm st' = searchTerm st
    /\ skillFilter st' = skillFilter st
    /\ locationFilter st' = locationFilter st
    /\ experienceFilter st' = experienceFilter st.
Proof.
  intros Hok Hsafe. rewrite (fetchResumes_success net data st Hok). simpl.
  unfold filterEffect.
  assert (computeFiltered (setFilteredResumes data (setResumes data st))
          = Normal (spec_filtered (setResumes data st))) as ->.
  { rewrite <- (computeFiltered_safe (setResumes data st)) by exact Hsafe.
    by apply computeFiltered_ext. }
  eexists. split; [reflexivity|]. done.
Qed.

End MoreHandlers.

(** ** What is rendered *)

Lemma Array_map_Forall2 {A B} (cb : A -> completion B) l ys :
  Array_map cb l = Normal ys <-> Forall2 (fun x y => cb x = Normal y) l ys.
Proof.
  revert ys. induction l as [|x l IH]; intros ys; simpl.
  - split.
    + intros [= <-]. constructor.
    + by intros ->%Forall2_nil_inv_l.
  - split.
    + destruct (cb x) as [y|] eqn:Hx; simpl; [|done].
      destruct (Array_map cb l) as [ys'|] eqn:Hl; simpl; [|done].
      intros [= <-]. constructor; [done|]. by apply IH.
    + intros (y & ys' & Hx & Hl%IH & ->)%Forall2_cons_inv_l.
      by rewrite Hx, Hl.
Qed.

Lemma Array_map_entries {A B} (f : A -> B) (cb : nullable A -> completion B)
    (l : list (nullable A)) :
  (forall a, cb (Some a) = Normal (f a)) ->
  cb None = Throw TypeError ->
  match Array_map cb l with
  | Normal _ =>
      forallb (fun x => match x with Some _ => true | None => false end) l
      = true
  | Throw e =>
      forallb (fun x => match x with Some _ => true | None => false end) l
      = false
      /\ e = TypeError
  end.
Proof.
  intros Hsome Hnone. induction l as [|[a|] l IH]; simpl; [done| |].
  - rewrite Hsome. simpl. by destruct (Array_map cb l).
  - by rewrite Hnone.
Qed.

Lemma forallb_Forall_true {A} (p : A -> bool) (l : list A) :
  forallb p l = true <-> Forall (fun x => p x = true) l.
Proof.
  induction l as [|x l IH]; simpl.
  - split; [constructor|done].
  - rewrite andb_true_iff, IH, Forall_cons. done.
Qed.

(** X13. The second row shows at most one filter input: the one the mode
    names, holding that criterion's current value; none in mode "all" (nor
    in any mode other than "skills", "location", "experience").  The search
    criterion never appears there. *)
Theorem second_row_shows_the_input_of_the_mode st :
  length (filterInputs st) <= 1
  /\ (forall k v, (k, v) ∈ filterInputs st ->
        v = criterion k st
        /\ filterType st <> "all"
        /\ ((k = SkillFilter /\ filterType st = "skills")
            \/ (k = LocationFilter /\ filterType st = "location")
            \/ (k = ExperienceFilter /\ filterType st = "experience")))
  /\ (filterInputs st = []
      <-> filterType st <> "skills" /\ filterType st <> "location"
          /\ filterType st <> "experience").
Proof.
  unfold filterInputs.
  destruct (String.eqb_spec (filterType st) "all") as [Hall|Hall]; simpl.
  { rewrite Hall. split; [lia|]. split; [by intros k v ?%elem_of_nil|done]. }
  destruct (String.eqb_spec (filterType st) "skills") as [Hk|Hk];
    destruct (String.eqb_spec (filterType st) "location") as [Hl|Hl];
    destruct (String.eqb_spec (filterType st) "experience") as [He|He];
    try congruence; simpl.
  - split; [lia|]. split.
    + intros k v [= -> ->]%list_elem_of_singleton. tauto.
    + split; [done|]. by intros [? _].
  - split; [lia|]. split.
    + intros k v [= -> ->]%list_elem_of_singleton. tauto.
    + split; [done|]. by intros (_ & ? & _).
  - split; [lia|]. split.
    + intros k v [= -> ->]%list_elem_of_singleton. tauto.
    + split; [done|]. by intros (_ & _ & ?).
  - split; [lia|]. split; [by intros k v ?%elem_of_nil|done].
Qed.

(** X14. Every skill is either shown or counted: the cell shows the first
    skills, three at most, and the badge is there exactly when some are
    left, reading [+n] with [n] the number left. *)
Theorem skills_cell_accounts_for_every_skill (l : list (nullable string)) :
  length (chips (renderSkills l)) <= 3
  /\ chips (renderSkills l) `prefix_of` l
  /\ match badge (renderSkills l) with
     | None => chips (renderSkills l) = l
     | Some b =>
         exists n, b = "+" +:+ Number_toString n
                   /\ 0 < n
                   /\ length (chips (renderSkills l)) + n = length l
     end.
Proof.
  unfold renderSkills. simpl. split; [rewrite length_take; lia|].
  split; [apply prefix_take|].
  destruct (Nat.ltb_spec 3 (length l)) as [Hlt|Hle].
  - exists (length l - 3). rewrite length_take. split; [done|]. lia.
  - by apply take_ge.
Qed.

Lemma renderRow_outcome resume :
  match renderRow resume with
  | Normal row =>
      row_safe resume = true
      /\ nameCell row = opt_personal name resume
      /\ emailCell row = opt_personal email resume
      /\ locationCell row = opt_personal location resume
  | Throw e => row_safe resume = false /\ e = TypeError
  end.
Proof.
  unfold renderRow, row_safe. destruct resume as [r|]; simpl; [|done].
  destruct (education r) as [edus|]; simpl; [|done].
  pose proof (Array_map_entries
                (fun e => text_of (degree e) +:+ " - "
                          +:+ text_of (institution e))
                (fun edu =>
                   let* d := get edu degree in
                   let* i := get edu institution in
                   Normal (text_of d +:+ " - " +:+ text_of i))
                edus (fun _ => eq_refl) eq_refl) as Hedu.
  destruct (Array_map _ edus) as [cells|e]; simpl.
  2:{ destruct Hedu as [-> ->]. done. }
  rewrite Hedu. simpl.
  destruct (skills r) as [sk|]; simpl; [|done].
  destruct (experience r) as [exps|]; simpl; [|done].
  pose proof (Array_map_entries
                (fun e => text_of (title e) +:+ " at "
                          +:+ text_of (company e))
                (fun exp =>
                   let* t := get exp title in
                   let* c := get exp company in
                   Normal (text_of t +:+ " at " +:+ text_of c))
                exps (fun _ => eq_refl) eq_refl) as Hexp.
  destruct (Array_map _ exps) as [cells'|e]; simpl.
  2:{ destruct Hexp as [-> ->]. done. }
  by rewrite Hexp.
Qed.

(** X15. A table row renders exactly for a record that is not [null] and
    has its [education] and [experience] arrays, without [null] entries, and
    its [skills] array; any other record raises [TypeError].  Absent
    personal fields, titles, companies, degrees or a missing file link do
    not matter, and the three personal cells show what the optional chains
    read. *)
Theorem table_row_renders_iff_row_safe resume :
  match renderRow resume with
  | Normal row =>
      row_safe resume = true
      /\ nameCell row = opt_personal name resume
      /\ emailCell row = opt_personal email resume
      /\ locationCell row = opt_personal location resume
  | Throw e => row_safe resume = false /\ e = TypeError
  end.
Proof. apply renderRow_outcome. Qed.

Lemma renderRow_completes resume :
  (exists row, renderRow resume = Normal row) <-> row_safe resume = true.
Proof.
  pose proof (renderRow_outcome resume) as H.
  destruct (renderRow resume) as [row|e].
  - split; [by intros _; apply H|by eexists].
  - destruct H as [-> _]. split; [by intros [? ?]|done].
Qed.

(** X16. The page renders exactly when every record of the filtered view
    can be rendered as a row; records of the collection that are filtered
    away are not looked at.  The table then has one row per record of the
    view, in the same order, and the controls reflect the state. *)
Theorem page_renders_the_filtered_view st :
  ((exists page, render st = Normal page)
   <-> forallb row_safe (filteredResumes st) = true)
  /\ forall page, render st = Normal page ->
       Forall2 (fun resume row => renderRow resume = Normal row)
         (filteredResumes st) (tableRows page)
       /\ length (tableRows page) = length (filteredResumes st)
       /\ map nameCell (tableRows page)
          = map (opt_personal name) (filteredResumes st)
       /\ clearButton page = clearFiltersButton st
       /\ secondRow page = filterInputs st
       /\ searchInput page = searchTerm st
       /\ modeSelect page = filterType st.
Proof.
  assert (Hrows : renderRows st = Array_map renderRow (filteredResumes st)).
  { unfold renderRows. by destruct (filteredResumes st). }
  unfold render. rewrite Hrows. clear Hrows. split.
  - rewrite forallb_Forall_true.
    transitivity (exists rows,
                    Array_map renderRow (filteredResumes st) = Normal rows).
    + destruct (Array_map renderRow (filteredResumes st)) as [rows|];
        simpl; [split; intros _; by eexists|split; intros [? ?]; done].
    + rewrite Array_map_completes.
      apply Forall_iff. intros resume. apply renderRow_completes.
  - intros page.
    destruct (Array_map renderRow (filteredResumes st)) as [rows|] eqn:Hmap;
      simpl; [|done].
    intros [= <-]. simpl. apply Array_map_Forall2 in Hmap.
    split; [exact Hmap|]. split; [symmetry; by eapply Forall2_length|].
    split; [|done].
    induction Hmap as [|resume row l rows Hrow _ IH]; simpl; [done|].
    rewrite IH. f_equal.
    pose proof (renderRow_outcome resume) as H. rewrite Hrow in H.
    apply H.
Qed.

(** ** Invariants of the reachable states *)

Section Reachable.
Context {L : CaseMapping} {X : ExcelLib}.

Lemma commit_fields handler st st' :
  commit handler st = Normal st' ->
  resumes st' = resumes (handler st)
  /\ searchTerm st' = searchTerm (handler st)
  /\ skillFilter st' = skillFilter (handler st)
  /\ locationFilter st' = locationFilter (handler st)
  /\ experienceFilter st' = experienceFilter (handler st)
  /\ filterType st' = filterType (handler st).
Proof.
  unfold commit. destruct (deps_changed st (handler st)).
  - unfold filterEffect.
    destruct (computeFiltered (handler st)); simpl; [|done].
    by intros [= <-].
  - by intros [= <-].
Qed.

Lemma dispatch_frame a st :
  resumes (dispatch a st) = resumes st
  /\ filteredResumes (dispatch a st) = filteredResumes st.
Proof.
  destruct a as [v|k v|value| |]; simpl; try done.
  - by destruct k.
  - unfold handleFilterTypeChange. by destruct (String.eqb value "all").
Qed.

Lemma render_controls st page :
  render st = Normal page ->
  secondRow page = filterInputs st /\ clearButton page = clearFiltersButton st.
Proof.
  unfold render. destruct (renderRows st); simpl; [|done]. by intros [= <-].
Qed.

Lemma filterInputs_offered k st :
  existsb (fun input => Criterion_eqb k (fst input)) (filterInputs st) = true ->
  filterType st <> "all" /\ In (filterType st) modeOptions.
Proof.
  unfold filterInputs.
  destruct (String.eqb_spec (filterType st) "all") as [Hall|Hall]; [done|].
  simpl.
  destruct (String.eqb_spec (filterType st) "skills") as [->|_];
    [intros _; split; [done|simpl; tauto]|].
  destruct (String.eqb_spec (filterType st) "location") as [->|_];
    [intros _; split; [done|simpl; tauto]|].
  destruct (String.eqb_spec (filterType st) "experience") as [->|_];
    [intros _; split; [done|simpl; tauto]|done].
Qed.

Lemma modeOptions_offered value :
  existsb (String.eqb value) modeOptions = true -> In value modeOptions.
Proof.
  simpl. rewrite !orb_true_iff.
  intros [H|[H|[H|[H|H]]]]; try done; apply String.eqb_eq in H; subst;
    tauto.
Qed.

Lemma reachable_inv st :
  reachable st ->
  settled st /\ mode_all_inv st /\ In (filterType st) modeOptions.
Proof.
  induction 1 as [|st page a st' _ (Hsettled & Hall & Hmode) Hrender Hoffer
                   Hcommit
                  |st net data st' _ (Hsettled & Hall & Hmode) Hok Heffect].
  - split; [reflexivity|]. split; [done|]. simpl. tauto.
  - split.
    { eapply commit_settled; [|exact Hsettled|exact Hcommit].
      intros s. apply dispatch_frame. }
    apply commit_fields in Hcommit as (_ & _ & Hk & Hl & He & Ht).
    apply render_controls in Hrender as [Hrow Hbutton].
    unfold mode_all_inv in *. rewrite Hk, Hl, He, Ht. clear Hk Hl He Ht.
    destruct a as [v|k v|value| |]; simpl in *.
    + done.
    + rewrite Hrow in Hoffer.
      apply filterInputs_offered in Hoffer as [Hne Hin].
      replace (filterType (setCriterion k v st)) with (filterType st)
        by (by destruct k).
      split; [done|exact Hin].
    + apply modeOptions_offered in Hoffer.
      unfold handleFilterTypeChange.
      destruct (String.eqb_spec value "all") as [->|Hne]; simpl; [done|].
      split; [done|exact Hoffer].
    + split; [done|tauto].
    + done.
  - rewrite (fetchResumes_success net data st Hok) in Heffect. simpl in Heffect.
    split; [by eapply filterEffect_settles|].
    unfold filterEffect in Heffect.
    destruct (computeFiltered _); simpl in Heffect; [|done].
    injection Heffect as <-. done.
Qed.






(** X20. In every reachable state the mode is one of the four values the
    selector offers, and the second row holds exactly one filter input
    unless the mode is "all". *)
Theorem reachable_mode_is_offered st :
  reachable st ->
  In (filterType st) modeOptions
  /\ length (filterInputs st)
     = if String.eqb (filterType st) "all" then 0 else 1.
Proof.
  intros (_ & _ & Hmode)%reachable_inv. split; [exact Hmode|].
  unfold filterInputs. simpl in Hmode.
  destruct Hmode as [<-|[<-|[<-|[<-|[]]]]]; reflexivity.
Qed.

End Reachable.

(** ** The further properties at work *)

Example filter_accepts_what_the_table_cannot_render :
  filter_safe noEducation = true /\ row_safe noEducation = false
  /\ renderRow noEducation = Throw TypeError.
Proof. by repeat split. Qed.

Example table_renders_what_the_filter_cannot_read :
  row_safe fiveSkills = true /\ filter_safe fiveSkills = false
  /\ computeFiltered (L:=ascii_case)
       (setExperienceFilter "acme" (withResumes [fiveSkills]))
     = Throw TypeError.
Proof. by repeat split. Qed.

Example five_skills_cell :
  renderSkills [Some "Go"; Some "SQL"; Some "C"; Some "Rust"; Some "Lua"]
  = {| chips := [Some "Go"; Some "SQL"; Some "C"]; badge := Some "+2" |}.
Proof. reflexivity. Qed.

Lemma reachable_st_loaded :
  reachable (L:=ascii_case) (X:=name_rows) st_loaded.
Proof.
  eapply (reach_loaded initialState (net_serving [annLee; bobRay])).
  - apply reach_mount.
  - eapply fetch_ok; reflexivity.
  - reflexivity.
Qed.

Lemma reachable_st_skills_sql :
  reachable (L:=ascii_case) (X:=name_rows) st_skills_sql.
Proof.
  eapply (reach_action st_skills_mode _ (TypeFilter SkillFilter "sql")).
  - eapply (reach_action st_loaded _ (SelectMode "skills")).
    + apply reachable_st_loaded.
    + reflexivity.
    + reflexivity.
    + reflexivity.
  - reflexivity.
  - reflexivity.
  - reflexivity.
Qed.

Lemma recomputation_raises_only_TypeError_witness :
  computeFiltered (L:=ascii_case) st_no_title = Throw TypeError
  /\ (TypeError = TypeError
      /\ filterEffect (L:=ascii_case) st_no_title = Throw TypeError).
Proof.
  split; [reflexivity|].
  apply (recomputation_raises_only_TypeError (L:=ascii_case) st_no_title).
  reflexivity.
Defined.

Lemma recomputation_is_stable_witness :
  computeFiltered (L:=ascii_case) st_ann_sql = Normal [annLee]
  /\ computeFiltered (L:=ascii_case) (setResumes [annLee] st_ann_sql)
     = Normal [annLee].
Proof.
  split; [reflexivity|].
  apply (recomputation_is_stable (L:=ascii_case) st_ann_sql [annLee]).
  reflexivity.
Defined.

Lemma criterion_case_is_irrelevant_witness :
  "ANN" <> "" /\ criterion SearchTerm st_ann_sql <> ""
  /\ computeFiltered (L:=ascii_case) (setCriterion SearchTerm "ANN" st_ann_sql)
     = computeFiltered (L:=ascii_case) st_ann_sql.
Proof.
  split; [discriminate|]. split; [discriminate|].
  apply (criterion_case_is_irrelevant (L:=ascii_case) SearchTerm "ANN"
           st_ann_sql); [discriminate|discriminate|reflexivity].
Defined.

Lemma active_search_term_ignores_null_elements_witness :
  searchTerm st_null_search <> ""
  /\ computeFiltered (L:=ascii_case)
       (setResumes (List.filter present (resumes st_null_search))
          st_null_search)
     = computeFiltered (L:=ascii_case) st_null_search
  /\ None ∉ [noLocation].
Proof.
  destruct (active_search_term_ignores_null_elements (L:=ascii_case)
              st_null_search) as [Hsame Hnone]; [discriminate|].
  split; [discriminate|]. split; [exact Hsame|].
  apply Hnone. reflexivity.
Defined.

Lemma null_element_throws_without_search_term_witness :
  None ∈ resumes st_null_skill
  /\ computeFiltered (L:=ascii_case) st_null_skill = Throw TypeError.
Proof.
  assert (Hin : None ∈ resumes st_null_skill)
    by (simpl; apply list_elem_of_further, list_elem_of_here).
  split; [exact Hin|].
  apply (null_element_throws_without_search_term (L:=ascii_case)
           st_null_skill); [reflexivity|exact Hin|].
  left. discriminate.
Defined.

Lemma location_filter_alone_witness :
  forallb has_personalInfo (resumes st_location_only) = true
  /\ computeFiltered (L:=ascii_case) st_location_only =
     if forallb has_personalInfo (resumes st_location_only)
     then Normal (List.filter
                    (spec_matches (L:=ascii_case) LocationFilter
                       (locationFilter st_location_only))
                    (resumes st_location_only))
     else Throw TypeError.
Proof.
  split; [reflexivity|].
  apply (location_filter_alone (L:=ascii_case) st_location_only);
    [reflexivity|reflexivity|reflexivity|discriminate].
Defined.

Lemma recomputation_distributes_over_concatenation_witness :
  computeFiltered (L:=ascii_case)
    (setResumes ([annLee; noLocation] ++ [bobRay]) st_typed_before_load)
  = Normal ([annLee] ++ []).
Proof.
  apply (recomputation_distributes_over_concatenation (L:=ascii_case)
           st_typed_before_load [annLee; noLocation] [bobRay] ([annLee] ++ [])).
  exists [annLee], []. repeat split; reflexivity.
Defined.

Lemma adding_a_criterion_gives_a_subsequence_witness :
  [bobRay] `sublist_of` [annLee; bobRay]
  /\ length [bobRay] <= length [annLee; bobRay].
Proof.
  apply (adding_a_criterion_gives_a_subsequence (L:=ascii_case)
           SkillFilter "java" st_search_a [annLee; bobRay] [bobRay]);
    reflexivity.
Defined.

Lemma switching_to_a_specific_mode_keeps_the_view_witness :
  "location" <> "all"
  /\ commit (L:=ascii_case) (handleFilterTypeChange "location") st_skills_sql
     = Normal (setFilterType "location" st_skills_sql).
Proof.
  split; [discriminate|].
  apply (switching_to_a_specific_mode_keeps_the_view (L:=ascii_case)
           "location" st_skills_sql).
  discriminate.
Defined.

Lemma mode_all_leaves_the_search_results_witness :
  forallb filter_safe (resumes st_ann_sql_settled) = true
  /\ settled (L:=ascii_case) st_ann_sql_settled
  /\ exists st',
       commit (L:=ascii_case) (handleFilterTypeChange "all") st_ann_sql_settled
       = Normal st'
       /\ filteredResumes st'
          = spec_step (L:=ascii_case) SearchTerm st_ann_sql_settled
              (resumes st_ann_sql_settled)
       /\ resumes st' = resumes st_ann_sql_settled
       /\ searchTerm st' = searchTerm st_ann_sql_settled
       /\ filterType st' = "all".
Proof.
  split; [reflexivity|]. split; [reflexivity|].
  apply (mode_all_leaves_the_search_results (L:=ascii_case)
           st_ann_sql_settled); reflexivity.
Defined.

Lemma late_response_is_filtered_witness :
  fetch_succeeds (net_serving [annLee; bobRay]) [annLee; bobRay]
  /\ exists st',
       filterEffect (L:=ascii_case)
         (fst (fetchResumes (X:=name_rows) (net_serving [annLee; bobRay])
                 st_typed_before_load)) = Normal st'
       /\ resumes st' = [annLee; bobRay]
       /\ filteredResumes st'
          = spec_filtered (L:=ascii_case)
              (setResumes [annLee; bobRay] st_typed_before_load)
       /\ searchTerm st' = searchTerm st_typed_before_load
       /\ skillFilter st' = skillFilter st_typed_before_load
       /\ locationFilter st' = locationFilter st_typed_before_load
       /\ experienceFilter st' = experienceFilter st_typed_before_load.
Proof.
  assert (Hok : fetch_succeeds (net_serving [annLee; bobRay])
                  [annLee; bobRay]) by (eapply fetch_ok; reflexivity).
  split; [exact Hok|].
  apply (late_response_is_filtered (L:=ascii_case) (X:=name_rows)
           (net_serving [annLee; bobRay]) [annLee; bobRay]
           st_typed_before_load); [exact Hok|reflexivity].
Defined.

Lemma second_row_shows_the_input_of_the_mode_witness :
  (SkillFilter, "sql") ∈ filterInputs st_skills_sql
  /\ "sql" = criterion SkillFilter st_skills_sql
  /\ filterType st_skills_sql <> "all"
  /\ filterType st_skills_sql = "skills".
Proof.
  assert (Hin : (SkillFilter, "sql") ∈ filterInputs st_skills_sql)
    by apply list_elem_of_here.
  destruct (second_row_shows_the_input_of_the_mode st_skills_sql)
    as (_ & Hinput & _).
  destruct (Hinput SkillFilter "sql" Hin) as (Hv & Hne & _).
  split; [exact Hin|]. split; [exact Hv|]. split; [exact Hne|reflexivity].
Defined.

Lemma page_renders_the_filtered_view_witness :
  forallb row_safe (filteredResumes st_two_visible) = true
  /\ exists page, render st_two_visible = Normal page.
Proof.
  split; [reflexivity|].
  destruct (page_renders_the_filtered_view st_two_visible) as [Hiff _].
  apply Hiff. reflexivity.
Defined.




Lemma reachable_mode_is_offered_witness :
  In (filterType st_skills_sql) modeOptions
  /\ length (filterInputs st_skills_sql)
     = if String.eqb (filterType st_skills_sql) "all" then 0 else 1.
Proof.
  apply (reachable_mode_is_offered (L:=ascii_case) (X:=name_rows)
           st_skills_sql).
  apply reachable_st_skills_sql.
Defined.
